(** * Pomodoro timer: the session state machine of [pomodoro.py]

    A shallow embedding of [PomodoroApp]: its attributes as a record, its
    methods as functions on that record, and the background timer thread as
    a small-step machine whose control points are the places where the
    thread can be preempted for a noticeable time (the head of each loop and
    each [time.sleep]).  Menu clicks run on the main thread and interleave
    with the timer thread at those control points; the statements between
    two control points are taken as one step.

    Python integers are [Z]; the idle time, a double, is a [spec_float];
    a notification is recorded by its kind.  Quitting and the start-at-login
    toggle do not touch the state machine and are left out. *)

From Stdlib Require Import ZArith Bool List Ascii String Lia.
From Stdlib Require Import DecimalString.
From Stdlib Require Import Floats.SpecFloat.
Import ListNotations.
Open Scope string_scope.
Open Scope Z_scope.

(** ** Python values and errors *)

(** The only exception the state machine can raise by itself is the one of
    [%] with a zero divisor. *)
Inductive exn := ZeroDivisionError.

Inductive result (A : Type) : Type :=
| Ok (a : A)
| Raise (e : exn).
Arguments Ok {A} a.
Arguments Raise {A} e.

Definition bind {A B} (r : result A) (k : A -> result B) : result B :=
  match r with
  | Ok a => k a
  | Raise e => Raise e
  end.

Notation "x <- r ;; k" := (bind r (fun x => k))
  (at level 61, r at next level, right associativity).

(** Python's [a % b] on integers: the result has the sign of the divisor,
    as [Z.modulo] has; a zero divisor raises. *)
Definition py_mod (a b : Z) : result Z :=
  if b =? 0 then Raise ZeroDivisionError else Ok (a mod b).

(** [str(n)] for an integer. *)
Definition str_int (z : Z) : string := NilZero.string_of_int (Z.to_int z).

(** [f"{n:02d}"]: at least two characters, padded with a zero on the left
    (a negative number already has two characters or more). *)
Definition format_02d (z : Z) : string :=
  let s := str_int z in
  if (String.length s <? 2)%nat then "0" ++ s else s.

(** The idle probe returns an IEEE double.  [idle_time < 3] compares it with
    the integer 3, which is the double 3 * 2^51 * 2^-51. *)
Definition three : spec_float := S754_finite false 6755399441055744 (-51).

(** ** Data model *)

Inductive TimerState := IDLE | FOCUS | SHORT_REST | LONG_REST | WAITING_FOR_USER.

Definition TimerState_eqb (s t : TimerState) : bool :=
  match s, t with
  | IDLE, IDLE | FOCUS, FOCUS | SHORT_REST, SHORT_REST
  | LONG_REST, LONG_REST | WAITING_FOR_USER, WAITING_FOR_USER => true
  | _, _ => false
  end.

(** [state in (SHORT_REST, LONG_REST)] *)
Definition is_rest (s : TimerState) : bool :=
  match s with SHORT_REST | LONG_REST => true | _ => false end.

(** [state in (FOCUS, SHORT_REST, LONG_REST)] *)
Definition is_timed (s : TimerState) : bool :=
  match s with FOCUS | SHORT_REST | LONG_REST => true | _ => false end.

(** The bound methods that are installed as menu callbacks. *)
Inductive Callback := start_focus_cb | skip_to_rest_cb | skip_to_focus_cb | stop_timer_cb.

(** A [rumps.MenuItem]: its title and its callback; [set_callback(None)]
    disables the item. *)
Record MenuItem := { item_title : string; callback : option Callback }.

Definition set_callback (cb : option Callback) (m : MenuItem) : MenuItem :=
  {| item_title := item_title m; callback := cb |}.

Definition set_item_title (t : string) (m : MenuItem) : MenuItem :=
  {| item_title := t; callback := callback m |}.

(** The menu bar title is an icon followed by a text. *)
Inductive Icon := Tomato | Coffee.

(** The two messages of [toggle_autostart]. *)
Inductive AutostartNotice := AutostartDisabled | AutostartEnabled.

(** What [notify] sends.  The quote that [start_focus] adds with
    [random.choice] is not part of the state machine and is left out. *)
Inductive Notification :=
| FocusTime (minutes : Z)
| Break (is_long : bool) (minutes : Z)
| ReadyToFocus
| Autostart (notice : AutostartNotice).

(** Where the timer thread stands between two of its atomic stretches. *)
Inductive Loc :=
| LoopHead    (* about to test [while self.running] in [timer_loop] *)
| TickSleep   (* inside [time.sleep(1)] of the countdown, before the decrement *)
| WaitPoll    (* about to test the loop condition of [wait_for_user] *)
| Exited.     (* [timer_loop] has returned *)

Record PomodoroApp := MkApp {
  focus_duration : Z;
  short_rest_duration : Z;
  long_rest_duration : Z;
  sessions_until_long_rest : Z;
  state : TimerState;
  time_remaining : Z;
  completed_sessions : Z;
  sessions_today : Z;
  timer_thread : option Loc;
  running : bool;
  title : Icon * string;
  start_button : MenuItem;
  skip_button : MenuItem;
  stop_button : MenuItem;
  stats_item : MenuItem;
  notifications : list Notification
}.

(** Attribute assignment. *)
Definition set_state (v : TimerState) (a : PomodoroApp) : PomodoroApp :=
  let 'MkApp fd sr lr n st tr cs sd th r ti b1 b2 b3 si no := a in
  MkApp fd sr lr n v tr cs sd th r ti b1 b2 b3 si no.
Definition set_time_remaining (v : Z) (a : PomodoroApp) : PomodoroApp :=
  let 'MkApp fd sr lr n st tr cs sd th r ti b1 b2 b3 si no := a in
  MkApp fd sr lr n st v cs sd th r ti b1 b2 b3 si no.
Definition set_completed_sessions (v : Z) (a : PomodoroApp) : PomodoroApp :=
  let 'MkApp fd sr lr n st tr cs sd th r ti b1 b2 b3 si no := a in
  MkApp fd sr lr n st tr v sd th r ti b1 b2 b3 si no.
Definition set_sessions_today (v : Z) (a : PomodoroApp) : PomodoroApp :=
  let 'MkApp fd sr lr n st tr cs sd th r ti b1 b2 b3 si no := a in
  MkApp fd sr lr n st tr cs v th r ti b1 b2 b3 si no.
Definition set_timer_thread (v : option Loc) (a : PomodoroApp) : PomodoroApp :=
  let 'MkApp fd sr lr n st tr cs sd th r ti b1 b2 b3 si no := a in
  MkApp fd sr lr n st tr cs sd v r ti b1 b2 b3 si no.
Definition set_running (v : bool) (a : PomodoroApp) : PomodoroApp :=
  let 'MkApp fd sr lr n st tr cs sd th r ti b1 b2 b3 si no := a in
  MkApp fd sr lr n st tr cs sd th v ti b1 b2 b3 si no.
Definition set_title (v : Icon * string) (a : PomodoroApp) : PomodoroApp :=
  let 'MkApp fd sr lr n st tr cs sd th r ti b1 b2 b3 si no := a in
  MkApp fd sr lr n st tr cs sd th r v b1 b2 b3 si no.
Definition set_start_button (v : MenuItem) (a : PomodoroApp) : PomodoroApp :=
  let 'MkApp fd sr lr n st tr cs sd th r ti b1 b2 b3 si no := a in
  MkApp fd sr lr n st tr cs sd th r ti v b2 b3 si no.
Definition set_skip_button (v : MenuItem) (a : PomodoroApp) : PomodoroApp :=
  let 'MkApp fd sr lr n st tr cs sd th r ti b1 b2 b3 si no := a in
  MkApp fd sr lr n st tr cs sd th r ti b1 v b3 si no.
Definition set_stop_button (v : MenuItem) (a : PomodoroApp) : PomodoroApp :=
  let 'MkApp fd sr lr n st tr cs sd th r ti b1 b2 b3 si no := a in
  MkApp fd sr lr n st tr cs sd th r ti b1 b2 v si no.
Definition set_stats_item (v : MenuItem) (a : PomodoroApp) : PomodoroApp :=
  let 'MkApp fd sr lr n st tr cs sd th r ti b1 b2 b3 si no := a in
  MkApp fd sr lr n st tr cs sd th r ti b1 b2 b3 v no.
Definition set_notifications (v : list Notification) (a : PomodoroApp) : PomodoroApp :=
  let 'MkApp fd sr lr n st tr cs sd th r ti b1 b2 b3 si no := a in
  MkApp fd sr lr n st tr cs sd th r ti b1 b2 b3 si v.

(** [PomodoroApp.__init__], with the four settings as parameters. *)
Definition init_with (fd sr lr n : Z) : PomodoroApp :=
  {| focus_duration := fd;
     short_rest_duration := sr;
     long_rest_duration := lr;
     sessions_until_long_rest := n;
     state := IDLE;
     time_remaining := 0;
     completed_sessions := 0;
     sessions_today := 0;
     timer_thread := None;
     running := false;
     title := (Tomato, "Ready");
     start_button := {| item_title := "Start Focus"; callback := Some start_focus_cb |};
     skip_button := {| item_title := "Skip to Rest"; callback := None |};
     stop_button := {| item_title := "Stop Timer"; callback := None |};
     stats_item := {| item_title := "Sessions today: " ++ str_int 0; callback := None |};
     notifications := [] |}.

(** The settings [__init__] chooses. *)
Definition init : PomodoroApp := init_with (25 * 60) (5 * 60) (15 * 60) 4.

(** ** Methods *)

(** [format_time]: [divmod(int(seconds), 60)] rendered as MM:SS. *)
Definition format_time (seconds : Z) : string :=
  let mins := seconds / 60 in
  let secs := seconds mod 60 in
  format_02d mins ++ ":" ++ format_02d secs.

Definition update_title (a : PomodoroApp) : PomodoroApp :=
  match state a with
  | IDLE => set_title (Tomato, "Ready") a
  | FOCUS => set_title (Tomato, format_time (time_remaining a)) a
  | SHORT_REST | LONG_REST => set_title (Coffee, format_time (time_remaining a)) a
  | WAITING_FOR_USER => set_title (Tomato, "Waiting...") a
  end.

Definition update_menu_state (a : PomodoroApp) : PomodoroApp :=
  let a :=
    match state a with
    | IDLE =>
        let a := set_start_button (set_callback (Some start_focus_cb) (start_button a)) a in
        let a := set_skip_button (set_item_title "Skip to Rest" (skip_button a)) a in
        let a := set_skip_button (set_callback None (skip_button a)) a in
        set_stop_button (set_callback None (stop_button a)) a
    | FOCUS =>
        let a := set_start_button (set_callback None (start_button a)) a in
        let a := set_skip_button (set_item_title "Skip to Rest" (skip_button a)) a in
        let a := set_skip_button (set_callback (Some skip_to_rest_cb) (skip_button a)) a in
        set_stop_button (set_callback (Some stop_timer_cb) (stop_button a)) a
    | SHORT_REST | LONG_REST =>
        let a := set_start_button (set_callback None (start_button a)) a in
        let a := set_skip_button (set_item_title "Skip to Focus" (skip_button a)) a in
        let a := set_skip_button (set_callback (Some skip_to_focus_cb) (skip_button a)) a in
        set_stop_button (set_callback (Some stop_timer_cb) (stop_button a)) a
    | WAITING_FOR_USER =>
        let a := set_start_button (set_callback (Some start_focus_cb) (start_button a)) a in
        let a := set_skip_button (set_item_title "Skip to Rest" (skip_button a)) a in
        let a := set_skip_button (set_callback None (skip_button a)) a in
        set_stop_button (set_callback (Some stop_timer_cb) (stop_button a)) a
    end in
  set_stats_item
    (set_item_title ("Sessions today: " ++ str_int (sessions_today a)) (stats_item a)) a.

Definition notify (n : Notification) (a : PomodoroApp) : PomodoroApp :=
  set_notifications (n :: notifications a) a.

(** [self.timer_thread is None or not self.timer_thread.is_alive()] *)
Definition no_live_thread (a : PomodoroApp) : bool :=
  match timer_thread a with
  | None | Some Exited => true
  | Some _ => false
  end.

Definition start_focus (a : PomodoroApp) : PomodoroApp :=
  let a := set_state FOCUS a in
  let a := set_time_remaining (focus_duration a) a in
  let a := set_running true a in
  let a := update_title a in
  let a := update_menu_state a in
  let a := notify (FocusTime (focus_duration a / 60)) a in
  if no_live_thread a then set_timer_thread (Some LoopHead) a else a.

Definition start_rest (is_long : bool) (a : PomodoroApp) : PomodoroApp :=
  let a :=
    if is_long then
      let a := set_state LONG_REST a in
      set_time_remaining (long_rest_duration a) a
    else
      let a := set_state SHORT_REST a in
      set_time_remaining (short_rest_duration a) a in
  let duration :=
    if is_long then long_rest_duration a / 60 else short_rest_duration a / 60 in
  let a := set_running true a in
  let a := update_title a in
  let a := update_menu_state a in
  notify (Break is_long duration) a.

Definition skip_to_rest (a : PomodoroApp) : result PomodoroApp :=
  if TimerState_eqb (state a) FOCUS then
    r <- py_mod (completed_sessions a + 1) (sessions_until_long_rest a) ;;
    Ok (start_rest (r =? 0) a)
  else Ok a.

Definition skip_to_focus (a : PomodoroApp) : PomodoroApp :=
  if is_rest (state a) then start_focus a else a.

Definition stop_timer (a : PomodoroApp) : PomodoroApp :=
  let a := set_running false a in
  let a := set_state IDLE a in
  let a := set_time_remaining 0 a in
  let a := update_title a in
  update_menu_state a.

(** ** The timer thread *)

(** [wait_for_user], up to its polling loop: lines 307-314. *)
Definition wait_for_user_enter (a : PomodoroApp) : PomodoroApp :=
  let a := set_state WAITING_FOR_USER a in
  let a := update_title a in
  let a := update_menu_state a in
  notify ReadyToFocus a.

(** One turn of the polling loop of [wait_for_user], from the test of its
    condition to the end of [time.sleep(1)], or to the [return].  [idle_time]
    is what [get_idle_time] answers if it is asked. *)
Definition wait_for_user_poll (idle_time : spec_float) (a : PomodoroApp) : PomodoroApp :=
  if running a && TimerState_eqb (state a) WAITING_FOR_USER then
    if SFltb idle_time three then
      set_timer_thread (Some LoopHead) (start_focus a)
    else a
  else set_timer_thread (Some LoopHead) a.

(** [timer_loop] from the test of [self.running] to the next control point:
    the thread enters the one-second sleep of the countdown, or handles a
    finished timer, or idles for half a second, or leaves the loop. *)
Definition timer_loop_head (a : PomodoroApp) : result PomodoroApp :=
  if running a then
    if is_timed (state a) then
      if 0 <? time_remaining a then
        Ok (set_timer_thread (Some TickSleep) a)
      else
        if TimerState_eqb (state a) FOCUS then
          let a := set_completed_sessions (completed_sessions a + 1) a in
          let a := set_sessions_today (sessions_today a + 1) a in
          let a := update_menu_state a in
          r <- py_mod (completed_sessions a) (sessions_until_long_rest a) ;;
          Ok (start_rest (r =? 0) a)
        else if is_rest (state a) then
          Ok (set_timer_thread (Some WaitPoll) (wait_for_user_enter a))
        else Ok a
    else Ok a
  else Ok (set_timer_thread (Some Exited) a).

(** The end of the countdown's [time.sleep(1)]: lines 330-331, then back to
    the head of the loop. *)
Definition timer_loop_wake (a : PomodoroApp) : PomodoroApp :=
  let a := set_time_remaining (time_remaining a - 1) a in
  let a := update_title a in
  set_timer_thread (Some LoopHead) a.

(** One atomic stretch of the timer thread. *)
Definition thread_step (idle_time : spec_float) (a : PomodoroApp) : result PomodoroApp :=
  match timer_thread a with
  | Some LoopHead => timer_loop_head a
  | Some TickSleep => Ok (timer_loop_wake a)
  | Some WaitPoll => Ok (wait_for_user_poll idle_time a)
  | Some Exited | None => Ok a
  end.

(** ** The menu *)

Definition invoke (cb : Callback) (a : PomodoroApp) : result PomodoroApp :=
  match cb with
  | start_focus_cb => Ok (start_focus a)
  | skip_to_rest_cb => skip_to_rest a
  | skip_to_focus_cb => Ok (skip_to_focus a)
  | stop_timer_cb => Ok (stop_timer a)
  end.

Inductive Button := StartButton | SkipButton | StopButton.

Definition button (b : Button) (a : PomodoroApp) : MenuItem :=
  match b with
  | StartButton => start_button a
  | SkipButton => skip_button a
  | StopButton => stop_button a
  end.

(** A click on a menu item calls its callback; a disabled item ignores it. *)
Definition click (b : Button) (a : PomodoroApp) : result PomodoroApp :=
  match callback (button b a) with
  | Some cb => invoke cb a
  | None => Ok a
  end.

(** ** Executions *)

(** What can happen next: the user clicks a menu item, or the timer thread
    runs to its next control point. *)
Inductive event :=
| Click (b : Button)
| Timer (idle_time : spec_float).

Definition step (ev : event) (a : PomodoroApp) : result PomodoroApp :=
  match ev with
  | Click b => click b a
  | Timer idle_time => thread_step idle_time a
  end.

Fixpoint run (evs : list event) (a : PomodoroApp) : result PomodoroApp :=
  match evs with
  | [] => Ok a
  | ev :: evs => a' <- step ev a ;; run evs a'
  end.

Inductive reachable (a0 : PomodoroApp) : PomodoroApp -> Prop :=
| reachable_init : reachable a0 a0
| reachable_step ev a a' :
    reachable a0 a -> step ev a = Ok a' -> reachable a0 a'.

(** The timer thread is about to take the branch "Timer finished" of a
    focus session: a natural focus completion. *)
Definition focus_completes (a : PomodoroApp) : bool :=
  match timer_thread a with
  | Some LoopHead =>
      running a && TimerState_eqb (state a) FOCUS && negb (0 <? time_remaining a)
  | _ => false
  end.

(** Number of natural focus completions in an execution. *)
Fixpoint completions (evs : list event) (a : PomodoroApp) : Z :=
  match evs with
  | [] => 0
  | ev :: evs =>
      match step ev a with
      | Ok a' =>
          (match ev with
           | Timer _ => if focus_completes a then 1 else 0
           | Click _ => 0
           end) + completions evs a'
      | Raise _ => 0
      end
  end.

(** The menu that [update_menu_state] installs for a state. *)
Definition menu_for (s : TimerState) : option Callback * (string * option Callback) * option Callback :=
  match s with
  | IDLE => (Some start_focus_cb, ("Skip to Rest", None), None)
  | FOCUS => (None, ("Skip to Rest", Some skip_to_rest_cb), Some stop_timer_cb)
  | SHORT_REST | LONG_REST => (None, ("Skip to Focus", Some skip_to_focus_cb), Some stop_timer_cb)
  | WAITING_FOR_USER => (Some start_focus_cb, ("Skip to Rest", None), Some stop_timer_cb)
  end.

Definition menu_of (a : PomodoroApp) : option Callback * (string * option Callback) * option Callback :=
  (callback (start_button a),
   (item_title (skip_button a), callback (skip_button a)),
   callback (stop_button a)).

(** The four settings of [__init__]. *)
Definition settings (a : PomodoroApp) : Z * Z * Z * Z :=
  (focus_duration a, short_rest_duration a, long_rest_duration a,
   sessions_until_long_rest a).

(** The counters of completed sessions. *)
Definition counters (a : PomodoroApp) : Z * Z :=
  (completed_sessions a, sessions_today a).

(** The state [start_rest] enters. *)
Definition rest_state (is_long : bool) : TimerState :=
  if is_long then LONG_REST else SHORT_REST.

(** The duration [start_rest] loads. *)
Definition rest_duration (is_long : bool) (a : PomodoroApp) : Z :=
  if is_long then long_rest_duration a else short_rest_duration a.

(** What the branch [Timer finished] of a focus session computes when the
    modulo does not raise. *)
Definition complete_focus (a : PomodoroApp) : PomodoroApp :=
  start_rest ((completed_sessions a + 1) mod sessions_until_long_rest a =? 0)
    (update_menu_state
       (set_sessions_today (sessions_today a + 1)
          (set_completed_sessions (completed_sessions a + 1) a))).

(** The effects a click or a stretch of the timer thread can have, each with
    the condition under which the code takes that path. *)
Inductive transition (a : PomodoroApp) : PomodoroApp -> Prop :=
| tr_nothing :
    (* a disabled menu item, a command out of place, an idle half second *)
    transition a a
| tr_start_focus :
    transition a (start_focus a)
| tr_skip_to_rest :
    state a = FOCUS -> sessions_until_long_rest a <> 0 ->
    transition a
      (start_rest ((completed_sessions a + 1) mod sessions_until_long_rest a =? 0) a)
| tr_stop_timer :
    transition a (stop_timer a)
| tr_sleep :
    timer_thread a = Some LoopHead -> running a = true ->
    is_timed (state a) = true -> 0 < time_remaining a ->
    transition a (set_timer_thread (Some TickSleep) a)
| tr_wake :
    timer_thread a = Some TickSleep ->
    transition a (timer_loop_wake a)
| tr_complete_focus :
    focus_completes a = true -> sessions_until_long_rest a <> 0 ->
    transition a (complete_focus a)
| tr_wait_for_user :
    timer_thread a = Some LoopHead -> running a = true ->
    is_rest (state a) = true -> time_remaining a <= 0 ->
    transition a (set_timer_thread (Some WaitPoll) (wait_for_user_enter a))
| tr_exit :
    timer_thread a = Some LoopHead -> running a = false ->
    transition a (set_timer_thread (Some Exited) a)
| tr_user_active :
    timer_thread a = Some WaitPoll -> running a = true ->
    state a = WAITING_FOR_USER ->
    transition a (set_timer_thread (Some LoopHead) (start_focus a))
| tr_leave_wait :
    timer_thread a = Some WaitPoll ->
    running a && TimerState_eqb (state a) WAITING_FOR_USER = false ->
    transition a (set_timer_thread (Some LoopHead) a).

(** The menu agrees with the state. *)
Definition menu_in_sync (a : PomodoroApp) : Prop :=
  menu_of a = menu_for (state a).

(** The countdown is not negative outside IDLE, and it is positive while the
    thread sleeps in a state other than IDLE. *)
Definition countdown_ok (a : PomodoroApp) : Prop :=
  (state a <> IDLE -> 0 <= time_remaining a) /\
  (timer_thread a = Some TickSleep -> state a <> IDLE -> 0 < time_remaining a).

Definition positive_durations (a : PomodoroApp) : Prop :=
  0 < focus_duration a /\ 0 < short_rest_duration a /\ 0 < long_rest_duration a.

(** A tick: one second of the countdown.  From the head of its loop the
    thread sleeps for a second, takes it off the time remaining and renders
    it; when no time is left then, the loop turns once more at once, with no
    sleep in between, and handles the finished timer.  Where the thread does
    not go to sleep for a countdown second (a timer already finished, the
    polling loop of [wait_for_user], a stopped timer) a tick is one step of
    the thread.  No click arrives during a tick. *)
Definition tick (idle_time : spec_float) (a : PomodoroApp) : result PomodoroApp :=
  a1 <- thread_step idle_time a ;;
  match timer_thread a, timer_thread a1 with
  | Some LoopHead, Some TickSleep =>
      a2 <- thread_step idle_time a1 ;;
      if 0 <? time_remaining a2 then Ok a2 else thread_step idle_time a2
  | _, _ => Ok a1
  end.

Fixpoint ticks (idle_times : list spec_float) (a : PomodoroApp) : result PomodoroApp :=
  match idle_times with
  | [] => Ok a
  | idle_time :: idle_times => a' <- tick idle_time a ;; ticks idle_times a'
  end.

(** The character of a decimal digit. *)
Definition digit (d : Z) : ascii := ascii_of_nat (48 + Z.to_nat d).

(** What the tests below look at. *)
Definition observe (r : result PomodoroApp) :=
  match r with
  | Ok a => Some (state a, time_remaining a, completed_sessions a, title a, timer_thread a)
  | Raise _ => None
  end.

Definition one_second : spec_float := S754_finite false 4503599627370496 (-52).
Definition ten_seconds : spec_float := S754_finite false 5629499534213120 (-49).

(** The example of the specification: two-second focus, two-second rest,
    long rest every second session. *)
Definition demo : PomodoroApp := init_with 2 2 2 2.

Definition demo_focus : list event :=
  [Click StartButton;
   Timer one_second; Timer one_second; Timer one_second; Timer one_second;
   Timer one_second].

Definition demo_rest : list event :=
  demo_focus ++ [Timer one_second; Timer one_second; Timer one_second;
                 Timer one_second; Timer one_second].

(** The user starts a focus session and stops it while the timer thread is
    in the sleep of its first second. *)
Definition stop_during_sleep : list event :=
  [Click StartButton; Timer one_second; Click StopButton].

(** The first 1499 seconds of a focus session with the settings of
    [__init__]: one second is left and the thread is at the head of its
    loop. *)
Definition focus_until_last_second : list event :=
  Click StartButton :: repeat (Timer one_second) (2 * 1499).

(** ** The rest of the application *)

(** [quit_app], up to [rumps.quit_application()], which ends the process. *)
Definition quit_app (a : PomodoroApp) : PomodoroApp := set_running false a.

(** The title is the one [update_title] would set. *)
Definition title_in_sync (a : PomodoroApp) : Prop := update_title a = a.

(** The menu items are the ones [update_menu_state] would set. *)
Definition menu_up_to_date (a : PomodoroApp) : Prop := update_menu_state a = a.

(** The planned length of the session of the current state. *)
Definition session_length (a : PomodoroApp) : Z :=
  match state a with
  | FOCUS => focus_duration a
  | SHORT_REST => short_rest_duration a
  | LONG_REST => long_rest_duration a
  | IDLE | WAITING_FOR_USER => 0
  end.

(** The notification that is sent when the current state is entered; none
    for IDLE. *)
Definition announcement (a : PomodoroApp) : option Notification :=
  match state a with
  | FOCUS => Some (FocusTime (focus_duration a / 60))
  | SHORT_REST => Some (Break false (short_rest_duration a / 60))
  | LONG_REST => Some (Break true (long_rest_duration a / 60))
  | WAITING_FOR_USER => Some ReadyToFocus
  | IDLE => None
  end.

(** The timer thread runs. *)
Definition thread_alive (a : PomodoroApp) : bool := negb (no_live_thread a).

(** [Timer] events are the steps of the timer thread. *)
Definition is_timer (ev : event) : bool :=
  match ev with Timer _ => true | Click _ => false end.

(** ** Start at login *)

(** An absolute POSIX path, as the list of its components; [Path.parent]
    drops the last one and leaves the root as it is. *)
Definition Path := list string.

Definition parent (p : Path) : Path := removelast p.

Definition Path_eqb (p q : Path) : bool :=
  if list_eq_dec string_dec p q then true else false.

(** What the process is given: the home directory, whether it runs as a
    bundled application ([sys.frozen]), [sys.executable], and the absolute
    path of [__file__]. *)
Record Env := {
  home : Path;
  frozen : bool;
  sys_executable : Path;
  script_file : Path
}.

Definition BUNDLE_ID : string := "com.saurabhmisra.pomodoro".

(** The dictionary that [enable_autostart] dumps. *)
Record Plist := {
  Label : string;
  ProgramArguments : list Path;
  RunAtLoad : bool;
  KeepAlive : bool
}.

(** [str(p)]: the components after a slash each; the root is a slash. *)
Definition path_str (p : Path) : string :=
  match p with
  | [] => "/"
  | _ => String.concat "" (map (fun c => "/" ++ c) p)
  end.

(** The part of the machine the functions act on: the property lists on
    disk, the directories made, and the command lines handed to
    [os.system], the latest first.  The file operations are taken to
    succeed. *)
Record World := {
  files : list (Path * Plist);
  dirs : list Path;
  commands : list string
}.

Definition file_exists (p : Path) (w : World) : bool :=
  existsb (fun f => Path_eqb p (fst f)) (files w).

Definition read_file (p : Path) (w : World) : option Plist :=
  option_map snd (find (fun f => Path_eqb p (fst f)) (files w)).

Definition without (p : Path) (fs : list (Path * Plist)) : list (Path * Plist) :=
  filter (fun f => negb (Path_eqb p (fst f))) fs.

(** [open(p, "wb")] and [plistlib.dump]: the file is created or replaced. *)
Definition write_file (p : Path) (c : Plist) (w : World) : World :=
  {| files := (p, c) :: without p (files w); dirs := dirs w; commands := commands w |}.

(** [p.unlink()] *)
Definition unlink (p : Path) (w : World) : World :=
  {| files := without p (files w); dirs := dirs w; commands := commands w |}.

(** [d.mkdir(parents=True, exist_ok=True)] *)
Definition mkdir (d : Path) (w : World) : World :=
  {| files := files w;
     dirs := if existsb (Path_eqb d) (dirs w) then dirs w else d :: dirs w;
     commands := commands w |}.

Definition os_system (c : string) (w : World) : World :=
  {| files := files w; dirs := dirs w; commands := c :: commands w |}.

Definition get_launch_agent_path (env : Env) : Path :=
  (home env ++ ["Library"; "LaunchAgents"; (BUNDLE_ID ++ ".plist")%string])%list.

Definition get_app_executable (env : Env) : Path :=
  if frozen env then sys_executable env else script_file env.

Definition is_autostart_enabled (env : Env) (w : World) : bool :=
  file_exists (get_launch_agent_path env) w.

Definition enable_autostart (env : Env) (w : World) : World :=
  let launch_agents_dir := (home env ++ ["Library"; "LaunchAgents"])%list in
  let w := mkdir launch_agents_dir w in
  let executable := get_app_executable env in
  let program_args :=
    if frozen env then
      let app_path := parent (parent (parent executable)) in
      [["usr"; "bin"; "open"]; app_path]
    else
      [sys_executable env; executable] in
  let plist_content :=
    {| Label := BUNDLE_ID;
       ProgramArguments := program_args;
       RunAtLoad := true;
       KeepAlive := false |} in
  let plist_path := get_launch_agent_path env in
  let w := write_file plist_path plist_content w in
  os_system ("launchctl load " ++ path_str plist_path) w.

Definition disable_autostart (env : Env) (w : World) : World :=
  let plist_path := get_launch_agent_path env in
  if file_exists plist_path w then
    let w := os_system ("launchctl unload " ++ path_str plist_path) w in
    unlink plist_path w
  else w.

(** [toggle_autostart(sender)]: the world, the check mark of the menu item
    ([sender.state]) and the notifications sent, the latest first. *)
Definition toggle_autostart (env : Env) (x : World * bool * list AutostartNotice)
  : World * bool * list AutostartNotice :=
  let '(w, sender_state, notices) := x in
  if is_autostart_enabled env w then
    (disable_autostart env w, false, AutostartDisabled :: notices)
  else
    (enable_autostart env w, true, AutostartEnabled :: notices).

(** ** The whole menu *)

(** The application with the machine it runs on: the timer, the files, the
    check mark of the Start at Login item ([autostart_item.state]), and
    whether Quit has been chosen. *)
Record Program := {
  app : PomodoroApp;
  world : World;
  autostart_item : bool;
  quitting : bool
}.

(** [__init__] reads the check mark from the disk (line 152). *)
Definition init_program (env : Env) (w : World) (fd sr lr n : Z) : Program :=
  {| app := init_with fd sr lr n;
     world := w;
     autostart_item := is_autostart_enabled env w;
     quitting := false |}.

(** [toggle_autostart] as the callback of the Start at Login item: its two
    messages go through [self.notify] like every other notification. *)
Definition toggle_autostart_item (env : Env) (p : Program) : Program :=
  if is_autostart_enabled env (world p) then
    {| app := notify (Autostart AutostartDisabled) (app p);
       world := disable_autostart env (world p);
       autostart_item := false;
       quitting := quitting p |}
  else
    {| app := notify (Autostart AutostartEnabled) (app p);
       world := enable_autostart env (world p);
       autostart_item := true;
       quitting := quitting p |}.

(** Everything that can happen: an event of the timer, a click on Start at
    Login, a click on Quit.  Both items are always enabled. *)
Inductive menu_event :=
| Machine (ev : event)
| StartAtLogin
| Quit.

Definition menu_step (env : Env) (mev : menu_event) (p : Program) : result Program :=
  match mev with
  | Machine ev =>
      a' <- step ev (app p) ;;
      Ok {| app := a'; world := world p; autostart_item := autostart_item p;
            quitting := quitting p |}
  | StartAtLogin => Ok (toggle_autostart_item env p)
  | Quit =>
      Ok {| app := quit_app (app p); world := world p;
            autostart_item := autostart_item p; quitting := true |}
  end.

Fixpoint menu_run (env : Env) (mevs : list menu_event) (p : Program) : result Program :=
  match mevs with
  | [] => Ok p
  | mev :: mevs => p' <- menu_step env mev p ;; menu_run env mevs p'
  end.

(** The states the program can be in; the steps after a Quit are those the
    process may still take before it ends. *)
Inductive program_reachable (env : Env) (p0 : Program) : Program -> Prop :=
| program_reachable_init : program_reachable env p0 p0
| program_reachable_step mev p p' :
    program_reachable env p0 p -> menu_step env mev p = Ok p' ->
    program_reachable env p0 p'.

(** The notifications of the timer, as opposed to those of the Start at
    Login item. *)
Definition of_timer (m : Notification) : bool :=
  match m with Autostart _ => false | _ => true end.

(** A machine and a process to try things on. *)
Definition sample_env : Env :=
  {| home := ["Users"; "me"]; frozen := true;
     sys_executable := ["Applications"; "Pomodoro.app"; "Contents"; "MacOS"; "Pomodoro"];
     script_file := ["Users"; "me"; "pomodoro.py"] |}.

Definition empty_world : World := {| files := []; dirs := []; commands := [] |}.

Definition sample_program : Program :=
  init_program sample_env empty_world (25 * 60) (5 * 60) (15 * 60) 4.

(** ** Sample executions *)

Example demo_focus_done :
  observe (run demo_focus demo) = Some (SHORT_REST, 2, 1, (Coffee, "00:02"), Some LoopHead).
Proof. reflexivity. Qed.

Example demo_waiting :
  observe (run demo_rest demo)
  = Some (WAITING_FOR_USER, 0, 1, (Tomato, "Waiting..."), Some WaitPoll).
Proof. reflexivity. Qed.

Example demo_still_waiting :
  observe (run (demo_rest ++ [Timer ten_seconds; Timer ten_seconds]) demo)
  = Some (WAITING_FOR_USER, 0, 1, (Tomato, "Waiting..."), Some WaitPoll).
Proof. reflexivity. Qed.

Example demo_user_back :
  observe (run (demo_rest ++ [Timer ten_seconds; Timer one_second]) demo)
  = Some (FOCUS, 2, 1, (Tomato, "00:02"), Some LoopHead).
Proof. reflexivity. Qed.

Example demo_second_session_long :
  observe (run (demo_rest ++ [Timer one_second] ++ List.tl demo_focus) demo)
  = Some (LONG_REST, 2, 2, (Coffee, "00:02"), Some LoopHead).
Proof. reflexivity. Qed.

Example format_time_25min : format_time (25 * 60) = "25:00".
Proof. reflexivity. Qed.

Example format_time_61 : format_time 61 = "01:01".
Proof. reflexivity. Qed.

Example format_time_zero : format_time 0 = "00:00".
Proof. reflexivity. Qed.

(** [divmod(-1, 60)] is [(-1, 59)]. *)
Example format_time_minus_one : format_time (-1) = "-1:59".
Proof. reflexivity. Qed.

Example init_start :
  observe (click StartButton init) = Some (FOCUS, 1500, 0, (Tomato, "25:00"), Some LoopHead).
Proof. reflexivity. Qed.

Example zero_threshold_raises :
  skip_to_rest (start_focus (init_with 1500 300 900 0)) = Raise ZeroDivisionError.
Proof. reflexivity. Qed.

(** ** What each method leaves and what it sets *)

Ltac break_app a :=
  destruct a as [cfd csr clr cn st tr cs sd th r ti b1 b2 b3 si no].


Ltac simp :=
  cbn -[Z.eqb Z.ltb Z.modulo Z.add Z.sub Z.div str_int format_time append] in *.

Ltac by_cases_on_state :=
  match goal with
  | a : PomodoroApp |- _ => break_app a; simpl in *; subst
  end;
  repeat match goal with
    | s : TimerState |- _ => destruct s
    | b : bool |- _ => destruct b
    | l : Loc |- _ => destruct l
    | o : option Loc |- _ => destruct o
    end;
  simpl in *; try discriminate; try congruence; auto.

Lemma start_rest_state is_long a : state (start_rest is_long a) = rest_state is_long.
Proof. by_cases_on_state. Qed.

Lemma start_rest_time_remaining is_long a :
  time_remaining (start_rest is_long a) = rest_duration is_long a.
Proof. by_cases_on_state. Qed.

Lemma start_rest_running is_long a : running (start_rest is_long a) = true.
Proof. by_cases_on_state. Qed.

Lemma start_rest_counters is_long a : counters (start_rest is_long a) = counters a.
Proof. by_cases_on_state. Qed.

Lemma start_rest_settings is_long a : settings (start_rest is_long a) = settings a.
Proof. by_cases_on_state. Qed.

Lemma start_rest_timer_thread is_long a :
  timer_thread (start_rest is_long a) = timer_thread a.
Proof. by_cases_on_state. Qed.

Lemma start_rest_menu is_long a :
  menu_of (start_rest is_long a) = menu_for (rest_state is_long).
Proof. by_cases_on_state. Qed.

Lemma start_focus_state a : state (start_focus a) = FOCUS.
Proof. by_cases_on_state. Qed.

Lemma start_focus_time_remaining a : time_remaining (start_focus a) = focus_duration a.
Proof. by_cases_on_state. Qed.

Lemma start_focus_running a : running (start_focus a) = true.
Proof. by_cases_on_state. Qed.

Lemma start_focus_counters a : counters (start_focus a) = counters a.
Proof. by_cases_on_state. Qed.

Lemma start_focus_settings a : settings (start_focus a) = settings a.
Proof. by_cases_on_state. Qed.

Lemma start_focus_timer_thread a :
  timer_thread (start_focus a)
  = if no_live_thread a then Some LoopHead else timer_thread a.
Proof. by_cases_on_state. Qed.

Lemma start_focus_menu a : menu_of (start_focus a) = menu_for FOCUS.
Proof. by_cases_on_state. Qed.

Lemma stop_timer_state a : state (stop_timer a) = IDLE.
Proof. by_cases_on_state. Qed.

Lemma stop_timer_time_remaining a : time_remaining (stop_timer a) = 0.
Proof. by_cases_on_state. Qed.

Lemma stop_timer_running a : running (stop_timer a) = false.
Proof. by_cases_on_state. Qed.

Lemma stop_timer_counters a : counters (stop_timer a) = counters a.
Proof. by_cases_on_state. Qed.

Lemma stop_timer_settings a : settings (stop_timer a) = settings a.
Proof. by_cases_on_state. Qed.

Lemma stop_timer_timer_thread a : timer_thread (stop_timer a) = timer_thread a.
Proof. by_cases_on_state. Qed.

Lemma stop_timer_menu a : menu_of (stop_timer a) = menu_for IDLE.
Proof. by_cases_on_state. Qed.

Lemma skip_to_focus_counters a : counters (skip_to_focus a) = counters a.
Proof. unfold skip_to_focus. destruct (is_rest (state a)); auto using start_focus_counters. Qed.

Lemma skip_to_focus_settings a : settings (skip_to_focus a) = settings a.
Proof. unfold skip_to_focus. destruct (is_rest (state a)); auto using start_focus_settings. Qed.

Lemma wait_for_user_enter_state a : state (wait_for_user_enter a) = WAITING_FOR_USER.
Proof. by_cases_on_state. Qed.

Lemma wait_for_user_enter_time_remaining a :
  time_remaining (wait_for_user_enter a) = time_remaining a.
Proof. by_cases_on_state. Qed.

Lemma wait_for_user_enter_menu a :
  menu_of (wait_for_user_enter a) = menu_for WAITING_FOR_USER.
Proof. by_cases_on_state. Qed.

Lemma timer_loop_wake_time_remaining a :
  time_remaining (timer_loop_wake a) = time_remaining a - 1.
Proof. by_cases_on_state. Qed.

Lemma timer_loop_wake_state a : state (timer_loop_wake a) = state a.
Proof. by_cases_on_state. Qed.

Lemma timer_loop_wake_timer_thread a : timer_thread (timer_loop_wake a) = Some LoopHead.
Proof. by_cases_on_state. Qed.

Lemma py_mod_ok a b : b <> 0 -> py_mod a b = Ok (a mod b).
Proof. intros Hb. unfold py_mod. apply Z.eqb_neq in Hb. now rewrite Hb. Qed.

Lemma TimerState_eqb_eq s t : TimerState_eqb s t = true <-> s = t.
Proof. destruct s, t; simpl; split; congruence. Qed.

(** [skip_to_rest] in FOCUS is [start_rest] with the flag computed from the
    counter plus one. *)
Lemma skip_to_rest_in_focus a :
  state a = FOCUS -> sessions_until_long_rest a <> 0 ->
  skip_to_rest a
  = Ok (start_rest ((completed_sessions a + 1) mod sessions_until_long_rest a =? 0) a).
Proof.
  intros Hs Hn. unfold skip_to_rest. rewrite Hs. simpl.
  rewrite (py_mod_ok _ _ Hn). reflexivity.
Qed.

Lemma skip_to_rest_elsewhere a : state a <> FOCUS -> skip_to_rest a = Ok a.
Proof.
  intros Hs. unfold skip_to_rest.
  destruct (TimerState_eqb (state a) FOCUS) eqn:E; [|reflexivity].
  apply TimerState_eqb_eq in E. contradiction.
Qed.

Lemma focus_completes_inv a :
  focus_completes a = true ->
  timer_thread a = Some LoopHead /\ running a = true /\ state a = FOCUS
  /\ time_remaining a <= 0.
Proof.
  unfold focus_completes. intros H.
  destruct (timer_thread a) as [[| | |]|]; try discriminate.
  apply andb_prop in H. destruct H as [H Ht]. apply andb_prop in H. destruct H as [Hr Hs].
  apply TimerState_eqb_eq in Hs. apply negb_true_iff in Ht. apply Z.ltb_ge in Ht. auto.
Qed.

Lemma thread_step_completion idle_time a :
  focus_completes a = true -> sessions_until_long_rest a <> 0 ->
  thread_step idle_time a = Ok (complete_focus a).
Proof.
  intros Hc Hn. apply focus_completes_inv in Hc. destruct Hc as (Hth & Hr & Hs & Ht).
  unfold thread_step, timer_loop_head, complete_focus. rewrite Hth, Hr, Hs. simpl.
  apply Z.ltb_ge in Ht. rewrite Ht.
  apply Z.eqb_neq in Hn.
  break_app a. unfold py_mod. simp. subst. simp. rewrite Hn. reflexivity.
Qed.

Lemma complete_focus_state a :
  state (complete_focus a)
  = rest_state ((completed_sessions a + 1) mod sessions_until_long_rest a =? 0).
Proof. unfold complete_focus. apply start_rest_state. Qed.

Lemma complete_focus_counters a :
  counters (complete_focus a) = (completed_sessions a + 1, sessions_today a + 1).
Proof. unfold complete_focus. rewrite start_rest_counters. by_cases_on_state. Qed.

Lemma complete_focus_settings a : settings (complete_focus a) = settings a.
Proof. unfold complete_focus. rewrite start_rest_settings. by_cases_on_state. Qed.

Lemma complete_focus_time_remaining a :
  time_remaining (complete_focus a)
  = rest_duration ((completed_sessions a + 1) mod sessions_until_long_rest a =? 0) a.
Proof.
  unfold complete_focus. rewrite start_rest_time_remaining.
  destruct (_ =? 0); by_cases_on_state.
Qed.

Lemma complete_focus_timer_thread a : timer_thread (complete_focus a) = timer_thread a.
Proof. unfold complete_focus. rewrite start_rest_timer_thread. by_cases_on_state. Qed.

Lemma complete_focus_menu a :
  menu_of (complete_focus a)
  = menu_for (rest_state ((completed_sessions a + 1) mod sessions_until_long_rest a =? 0)).
Proof. unfold complete_focus. apply start_rest_menu. Qed.

(** ** Choice of the rest *)

(** C1.  For every counter value and every threshold of at least one,
    [skip_to_rest] from FOCUS, which tests [(completed_sessions + 1) % N]
    and leaves the counter alone, enters the same rest state as the natural
    completion of that session, which increments the counter and then tests
    [completed_sessions % N]. *)
Theorem skip_to_rest_agrees_with_completion
  (a b : PomodoroApp) (idle_time : spec_float) :
  1 <= sessions_until_long_rest a ->
  state a = FOCUS ->
  focus_completes b = true ->
  completed_sessions b = completed_sessions a ->
  sessions_until_long_rest b = sessions_until_long_rest a ->
  exists a' b',
    skip_to_rest a = Ok a' /\ thread_step idle_time b = Ok b' /\
    state a' = state b' /\ is_rest (state a') = true /\
    completed_sessions a' = completed_sessions a /\
    completed_sessions b' = completed_sessions a + 1.
Proof.
  intros Hn Hs Hb Hcs Hnb.
  assert (Hn0 : sessions_until_long_rest a <> 0) by lia.
  exists (start_rest ((completed_sessions a + 1) mod sessions_until_long_rest a =? 0) a).
  exists (complete_focus b).
  split; [now apply skip_to_rest_in_focus|].
  split; [apply thread_step_completion; [assumption | now rewrite Hnb]|].
  rewrite start_rest_state, complete_focus_state, Hcs, Hnb.
  pose proof (start_rest_counters
                ((completed_sessions a + 1) mod sessions_until_long_rest a =? 0) a) as Hc.
  pose proof (complete_focus_counters b) as Hc'.
  unfold counters in Hc, Hc'.
  injection Hc as Hc _. injection Hc' as Hc' _.
  repeat split; try assumption.
  - destruct (_ =? 0); reflexivity.
  - now rewrite Hc', Hcs.
Qed.

Lemma skip_to_rest_agrees_with_completion_witness :
  let a := start_focus init in
  let b := set_time_remaining 0 (start_focus init) in
  (1 <= sessions_until_long_rest a /\ state a = FOCUS /\ focus_completes b = true) /\
  exists a' b',
    skip_to_rest a = Ok a' /\ thread_step one_second b = Ok b' /\
    state a' = state b' /\ is_rest (state a') = true /\
    completed_sessions a' = completed_sessions a /\
    completed_sessions b' = completed_sessions a + 1.
Proof.
  split.
  - repeat split. vm_compute. discriminate.
  - apply (skip_to_rest_agrees_with_completion
             (start_focus init) (set_time_remaining 0 (start_focus init)) one_second);
      try reflexivity.
    vm_compute. discriminate.
Defined.

(** C10.  Whatever focus time remained, [skip_to_rest] in FOCUS loads the
    whole rest: [long_rest_duration] when the long-rest rule selects a long
    rest, [short_rest_duration] otherwise. *)
Theorem skip_to_rest_loads_full_rest (a : PomodoroApp) :
  state a = FOCUS ->
  sessions_until_long_rest a <> 0 ->
  exists a',
    skip_to_rest a = Ok a' /\
    let is_long := (completed_sessions a + 1) mod sessions_until_long_rest a =? 0 in
    state a' = (if is_long then LONG_REST else SHORT_REST) /\
    time_remaining a' = (if is_long then long_rest_duration a else short_rest_duration a).
Proof.
  intros Hs Hn. eexists. split; [now apply skip_to_rest_in_focus|].
  cbv zeta. now rewrite start_rest_state, start_rest_time_remaining.
Qed.

Lemma skip_to_rest_loads_full_rest_witness :
  let a := set_time_remaining 77 (set_completed_sessions 3 (start_focus init)) in
  (state a = FOCUS /\ sessions_until_long_rest a <> 0) /\
  exists a',
    skip_to_rest a = Ok a' /\ state a' = LONG_REST /\ time_remaining a' = 900.
Proof.
  split.
  - split; [reflexivity | vm_compute; discriminate].
  - destruct (skip_to_rest_loads_full_rest
                (set_time_remaining 77 (set_completed_sessions 3 (start_focus init))))
      as (a' & H & Hst & Htr).
    + reflexivity.
    + vm_compute; discriminate.
    + exists a'. auto.
Defined.

(** ** Counters *)

(** C4.  A natural focus completion adds exactly one to [completed_sessions]
    and to [sessions_today]; [skip_to_rest], [skip_to_focus] and [stop_timer]
    leave both as they are, in every state. *)
Theorem counters_move_only_on_completion (a : PomodoroApp) (idle_time : spec_float) :
  sessions_until_long_rest a <> 0 ->
  (focus_completes a = true ->
   exists a', thread_step idle_time a = Ok a' /\
              completed_sessions a' = completed_sessions a + 1 /\
              sessions_today a' = sessions_today a + 1) /\
  (exists a', skip_to_rest a = Ok a' /\ counters a' = counters a) /\
  counters (skip_to_focus a) = counters a /\
  counters (stop_timer a) = counters a.
Proof.
  intros Hn. repeat split.
  - intros Hc. exists (complete_focus a). split; [now apply thread_step_completion|].
    pose proof (complete_focus_counters a) as H. unfold counters in H.
    injection H as H1 H2. auto.
  - destruct (TimerState_eqb (state a) FOCUS) eqn:E.
    + apply TimerState_eqb_eq in E. eexists. split; [now apply skip_to_rest_in_focus|].
      apply start_rest_counters.
    + exists a. split; [|reflexivity]. apply skip_to_rest_elsewhere.
      intros H. apply TimerState_eqb_eq in H. congruence.
  - apply skip_to_focus_counters.
  - apply stop_timer_counters.
Qed.

Lemma counters_move_only_on_completion_witness :
  let a := set_time_remaining 0 (start_focus init) in
  (sessions_until_long_rest a <> 0 /\ focus_completes a = true) /\
  exists a', thread_step one_second a = Ok a' /\
             completed_sessions a' = 1 /\ sessions_today a' = 1.
Proof.
  split.
  - split; [vm_compute; discriminate | reflexivity].
  - destruct (counters_move_only_on_completion
                (set_time_remaining 0 (start_focus init)) one_second) as [H _].
    + vm_compute; discriminate.
    + apply H. reflexivity.
Defined.

(** ** Commands out of place *)

(** C7.  No command raises, from any state, and a command that does not
    apply to the current state ([skip_to_rest] outside FOCUS, [skip_to_focus]
    outside the two rests) returns the application as it was: state, time
    remaining, counters and all the rest. *)
Theorem commands_total_and_inapplicable_noop (a : PomodoroApp) :
  (state a <> FOCUS -> skip_to_rest a = Ok a) /\
  (is_rest (state a) = false -> skip_to_focus a = a) /\
  (sessions_until_long_rest a <> 0 ->
   (forall cb, exists a', invoke cb a = Ok a') /\
   (forall b, exists a', click b a = Ok a')).
Proof.
  assert (Hinv : sessions_until_long_rest a <> 0 ->
                 forall cb, exists a', invoke cb a = Ok a').
  { intros Hn cb. destruct cb; simpl; try (eexists; reflexivity).
    destruct (TimerState_eqb (state a) FOCUS) eqn:E.
    - apply TimerState_eqb_eq in E. eexists. now apply skip_to_rest_in_focus.
    - exists a. apply skip_to_rest_elsewhere.
      intros H. apply TimerState_eqb_eq in H. congruence. }
  repeat split.
  - apply skip_to_rest_elsewhere.
  - intros H. unfold skip_to_focus. now rewrite H.
  - now apply Hinv.
  - intros b. unfold click. destruct (callback (button b a)) as [cb|].
    + now apply Hinv.
    + now exists a.
Qed.

Lemma commands_total_and_inapplicable_noop_witness :
  (state init <> FOCUS /\ is_rest (state init) = false
   /\ sessions_until_long_rest init <> 0) /\
  skip_to_rest init = Ok init /\ skip_to_focus init = init /\
  exists a', invoke skip_to_rest_cb init = Ok a'.
Proof.
  destruct (commands_total_and_inapplicable_noop init) as (H1 & H2 & H3).
  assert (Hs : state init <> FOCUS) by (vm_compute; discriminate).
  assert (Hr : is_rest (state init) = false) by reflexivity.
  assert (Hn : sessions_until_long_rest init <> 0) by (vm_compute; discriminate).
  split; [auto|].
  split; [exact (H1 Hs)|]. split; [exact (H2 Hr)|].
  exact (proj1 (H3 Hn) skip_to_rest_cb).
Defined.

(** ** Executions, step by step *)

Lemma click_transition b a a' : click b a = Ok a' -> transition a a'.
Proof.
  unfold click. destruct (callback (button b a)) as [cb|].
  - destruct cb; simpl; intros H.
    + injection H as <-. constructor.
    + destruct (TimerState_eqb (state a) FOCUS) eqn:E.
      * apply TimerState_eqb_eq in E.
        destruct (Z.eq_dec (sessions_until_long_rest a) 0) as [Hn|Hn].
        -- unfold skip_to_rest, py_mod in H. rewrite E, Hn in H. discriminate.
        -- rewrite (skip_to_rest_in_focus a E Hn) in H. injection H as <-.
           now constructor.
      * unfold skip_to_rest in H. rewrite E in H. injection H as <-. constructor.
    + injection H as <-. unfold skip_to_focus.
      destruct (is_rest (state a)); constructor.
    + injection H as <-. constructor.
  - intros H. injection H as <-. constructor.
Qed.

Lemma thread_step_transition idle_time a a' :
  thread_step idle_time a = Ok a' -> transition a a'.
Proof.
  unfold thread_step. destruct (timer_thread a) as [[| | |]|] eqn:Hth; intros H.
  - unfold timer_loop_head in H.
    destruct (running a) eqn:Hr; [|injection H as <-; now constructor].
    destruct (is_timed (state a)) eqn:Htimed; [|injection H as <-; constructor].
    destruct (0 <? time_remaining a) eqn:Htr.
    { injection H as <-. apply Z.ltb_lt in Htr. now constructor. }
    apply Z.ltb_ge in Htr.
    destruct (TimerState_eqb (state a) FOCUS) eqn:Hs.
    + assert (Hc : focus_completes a = true).
      { unfold focus_completes. rewrite Hth, Hr, Hs. simpl.
        apply negb_true_iff. now apply Z.ltb_ge. }
      destruct (Z.eq_dec (sessions_until_long_rest a) 0) as [Hn|Hn].
      * exfalso. apply TimerState_eqb_eq in Hs.
        break_app a. unfold py_mod in H. simp. subst. simp. discriminate.
      * pose proof (thread_step_completion idle_time a Hc Hn) as Hstep.
        unfold thread_step in Hstep. rewrite Hth in Hstep.
        unfold timer_loop_head in Hstep. rewrite Hr, Htimed, Hs in Hstep.
        apply Z.ltb_ge in Htr. rewrite Htr in Hstep.
        rewrite Hstep in H. injection H as <-. now constructor.
    + destruct (is_rest (state a)) eqn:Hrest.
      * injection H as <-. now constructor.
      * injection H as <-. constructor.
  - injection H as <-. now constructor.
  - injection H as <-. unfold wait_for_user_poll.
    destruct (running a && TimerState_eqb (state a) WAITING_FOR_USER) eqn:E.
    + apply andb_prop in E. destruct E as [Hr Hs]. apply TimerState_eqb_eq in Hs.
      destruct (SFltb idle_time three); now constructor.
    + now constructor.
  - injection H as <-. constructor.
  - injection H as <-. constructor.
Qed.

Lemma step_transition ev a a' : step ev a = Ok a' -> transition a a'.
Proof.
  destruct ev; simpl; eauto using click_transition, thread_step_transition.
Qed.

Lemma run_app evs1 evs2 a :
  run (evs1 ++ evs2) a = (a' <- run evs1 a ;; run evs2 a').
Proof.
  revert a. induction evs1 as [|ev evs1 IH]; intros a; simpl; [reflexivity|].
  destruct (step ev a); simpl; auto.
Qed.

Lemma run_reachable evs : forall a0 a, run evs a0 = Ok a -> reachable a0 a.
Proof.
  induction evs as [|ev evs IH] using rev_ind; intros a0 a H.
  - injection H as <-. constructor.
  - rewrite run_app in H. destruct (run evs a0) as [a1|] eqn:E; [|discriminate].
    simpl in H. destruct (step ev a1) as [a2|] eqn:E2; [|discriminate].
    injection H as <-. eapply reachable_step; eauto.
Qed.

(** An invariant of the transitions that holds at the start holds in every
    reachable state. *)
Lemma reachable_ind_transition (P : PomodoroApp -> Prop) a0 :
  P a0 ->
  (forall a a', P a -> transition a a' -> P a') ->
  forall a, reachable a0 a -> P a.
Proof.
  intros H0 Hstep a Hr. induction Hr; eauto using step_transition.
Qed.

Lemma transition_settings a a' : transition a a' -> settings a' = settings a.
Proof.
  destruct 1;
    rewrite ?start_focus_settings, ?start_rest_settings, ?stop_timer_settings,
      ?complete_focus_settings; try reflexivity; by_cases_on_state.
Qed.

Lemma reachable_settings a0 a : reachable a0 a -> settings a = settings a0.
Proof.
  revert a. apply (reachable_ind_transition (fun a => settings a = settings a0));
    [reflexivity|].
  intros a1 a2 IH Ht. now rewrite (transition_settings _ _ Ht).
Qed.

Lemma transition_counters_equal a a' :
  transition a a' ->
  completed_sessions a = sessions_today a ->
  completed_sessions a' = sessions_today a'.
Proof.
  intros Ht Heq.
  assert (Hc : counters a' = counters a \/
               counters a' = (completed_sessions a + 1, sessions_today a + 1)).
  { destruct Ht;
      rewrite ?start_focus_counters, ?start_rest_counters, ?stop_timer_counters,
        ?complete_focus_counters; auto; left; by_cases_on_state. }
  unfold counters in Hc. destruct Hc as [Hc|Hc]; injection Hc as -> ->; lia.
Qed.

Lemma transition_menu_in_sync a a' :
  transition a a' -> menu_in_sync a -> menu_in_sync a'.
Proof.
  unfold menu_in_sync. intros Ht Hm. destruct Ht.
  - assumption.
  - now rewrite start_focus_menu, start_focus_state.
  - now rewrite start_rest_menu, start_rest_state.
  - now rewrite stop_timer_menu, stop_timer_state.
  - by_cases_on_state.
  - break_app a. simp. destruct st; exact Hm.
  - now rewrite complete_focus_menu, complete_focus_state.
  - pose proof (wait_for_user_enter_menu a) as Hw.
    pose proof (wait_for_user_enter_state a) as Hs.
    destruct (wait_for_user_enter a). simp. now rewrite Hs.
  - by_cases_on_state.
  - pose proof (start_focus_menu a) as Hw.
    pose proof (start_focus_state a) as Hs.
    destruct (start_focus a). simp. now rewrite Hs.
  - break_app a. exact Hm.
Qed.

Lemma skip_to_rest_counters a a' : skip_to_rest a = Ok a' -> counters a' = counters a.
Proof.
  unfold skip_to_rest. destruct (TimerState_eqb (state a) FOCUS).
  - destruct (py_mod _ _); simpl; [|discriminate].
    intros H. injection H as <-. apply start_rest_counters.
  - intros H. now injection H as <-.
Qed.

Lemma click_counters b a a' : click b a = Ok a' -> counters a' = counters a.
Proof.
  unfold click. destruct (callback (button b a)) as [[| | |]|]; simpl; intros H;
    try (injection H as <-);
    auto using start_focus_counters, skip_to_focus_counters, stop_timer_counters,
      skip_to_rest_counters.
Qed.

Lemma thread_step_completion_inv idle_time a a' :
  focus_completes a = true -> thread_step idle_time a = Ok a' ->
  sessions_until_long_rest a <> 0 /\ a' = complete_focus a.
Proof.
  intros Hc H. destruct (Z.eq_dec (sessions_until_long_rest a) 0) as [Hn|Hn].
  - exfalso. apply focus_completes_inv in Hc. destruct Hc as (Hth & Hr & Hs & Ht).
    apply Z.ltb_ge in Ht. unfold thread_step, timer_loop_head, py_mod in H.
    rewrite Hth, Hr, Hs in H. simpl in H. rewrite Ht in H.
    break_app a. simp. subst. simp. discriminate.
  - rewrite (thread_step_completion idle_time a Hc Hn) in H. injection H as <-. auto.
Qed.

Lemma thread_step_counters idle_time a a' :
  thread_step idle_time a = Ok a' ->
  counters a'
  = if focus_completes a then (completed_sessions a + 1, sessions_today a + 1)
    else counters a.
Proof.
  intros H. destruct (focus_completes a) eqn:Hc.
  - destruct (thread_step_completion_inv _ _ _ Hc H) as [_ ->].
    apply complete_focus_counters.
  - apply thread_step_transition in H.
    destruct H;
      rewrite ?start_focus_counters, ?start_rest_counters, ?stop_timer_counters;
      try reflexivity; try congruence; by_cases_on_state.
Qed.

Lemma run_completions evs : forall a0 a,
  run evs a0 = Ok a ->
  completed_sessions a = completed_sessions a0 + completions evs a0.
Proof.
  induction evs as [|ev evs IH]; intros a0 a H; simpl in *.
  - injection H as <-. lia.
  - destruct (step ev a0) as [a1|] eqn:E; [|discriminate]. simpl in H.
    rewrite (IH _ _ H). destruct ev as [b|idle_time]; simpl in E.
    + apply click_counters in E. unfold counters in E. injection E as -> _. lia.
    + apply thread_step_counters in E. unfold counters in E.
      destruct (focus_completes a0); injection E as -> _; lia.
Qed.

(** C2.  In any execution, the counter is the number of natural focus
    completions so far; the completion that makes it [k] (the k-th completed
    focus session) enters LONG_REST if and only if [k] is a multiple of
    [sessions_until_long_rest], and SHORT_REST otherwise. *)
Theorem nth_completion_long_rest_iff
  (fd sr lr n : Z) (evs : list event) (a : PomodoroApp) (idle_time : spec_float) :
  n <> 0 ->
  run evs (init_with fd sr lr n) = Ok a ->
  focus_completes a = true ->
  exists a',
    thread_step idle_time a = Ok a' /\
    let k := completions evs (init_with fd sr lr n) + 1 in
    completed_sessions a' = k /\
    (state a' = LONG_REST <-> k mod n = 0) /\
    (k mod n <> 0 -> state a' = SHORT_REST).
Proof.
  intros Hn Hrun Hc.
  pose proof (run_completions _ _ _ Hrun) as Hk. simpl in Hk.
  pose proof (reachable_settings _ _ (run_reachable _ _ _ Hrun)) as Hset.
  unfold settings in Hset. simpl in Hset. injection Hset as _ _ _ Hn'.
  exists (complete_focus a). split.
  - apply thread_step_completion; [assumption | now rewrite Hn'].
  - cbv zeta. pose proof (complete_focus_counters a) as Hcs. unfold counters in Hcs.
    injection Hcs as Hcs _. rewrite complete_focus_state, Hn', Hk in *.
    split; [assumption|].
    destruct (Z.eqb_spec ((completions evs (init_with fd sr lr n) + 1) mod n) 0)
      as [E|E]; simpl.
    + split; [tauto | intros; contradiction].
    + split; [split; [discriminate | contradiction] | reflexivity].
Qed.

Lemma nth_completion_long_rest_iff_witness :
  exists a a',
    run (demo_rest ++ [Timer one_second] ++ removelast (List.tl demo_focus)) demo = Ok a /\
    focus_completes a = true /\
    thread_step one_second a = Ok a' /\
    completed_sessions a' = 2 /\
    (state a' = LONG_REST <-> 2 mod 2 = 0).
Proof.
  destruct (run (demo_rest ++ [Timer one_second] ++ removelast (List.tl demo_focus)) demo)
    as [a|] eqn:E; [|vm_compute in E; discriminate].
  assert (Hc : focus_completes a = true).
  { vm_compute in E. injection E as <-. reflexivity. }
  assert (Hn : 2 <> 0) by discriminate.
  destruct (nth_completion_long_rest_iff 2 2 2 2 _ a one_second Hn E Hc)
    as (a' & H1 & H2 & H3 & _).
  exists a, a'. repeat split; try assumption; apply H3.
Defined.

(** C9.  Both counters start at 0, and in every reachable state
    [completed_sessions] equals [sessions_today]. *)
Theorem counters_always_equal (fd sr lr n : Z) (a : PomodoroApp) :
  reachable (init_with fd sr lr n) a ->
  completed_sessions (init_with fd sr lr n) = 0 /\
  sessions_today (init_with fd sr lr n) = 0 /\
  completed_sessions a = sessions_today a.
Proof.
  intros Hr. repeat split. revert a Hr.
  apply (reachable_ind_transition (fun a => completed_sessions a = sessions_today a)).
  - reflexivity.
  - intros a a' IH Ht. now apply (transition_counters_equal a a').
Qed.

Lemma counters_always_equal_witness :
  exists a, run demo_rest demo = Ok a /\ reachable demo a /\
            completed_sessions a = 1 /\ sessions_today a = 1.
Proof.
  destruct (run demo_rest demo) as [a|] eqn:E; [|vm_compute in E; discriminate].
  pose proof (run_reachable _ _ _ E) as Hr.
  destruct (counters_always_equal 2 2 2 2 a Hr) as (_ & _ & H).
  exists a. repeat split; try assumption.
  - vm_compute in E. injection E as <-. reflexivity.
  - rewrite <- H. vm_compute in E. injection E as <-. reflexivity.
Defined.

(** ** The menu gate *)

Lemma reachable_menu_in_sync fd sr lr n a :
  reachable (init_with fd sr lr n) a -> menu_in_sync a.
Proof.
  revert a. apply (reachable_ind_transition menu_in_sync).
  - reflexivity.
  - intros a a' IH Ht. now apply (transition_menu_in_sync a a').
Qed.

(** C5.  While the state is FOCUS the Start Focus command is disabled:
    invoking it changes nothing, neither the state nor the remaining time. *)
Theorem start_focus_in_focus_noop (fd sr lr n : Z) (a : PomodoroApp) :
  reachable (init_with fd sr lr n) a ->
  state a = FOCUS ->
  click StartButton a = Ok a.
Proof.
  intros Hr Hs. apply reachable_menu_in_sync in Hr. unfold menu_in_sync in Hr.
  rewrite Hs in Hr. unfold menu_of in Hr. simpl in Hr.
  unfold click. simpl. injection Hr as -> _ _ _. reflexivity.
Qed.

Lemma start_focus_in_focus_noop_witness :
  exists a, run [Click StartButton; Timer one_second; Timer one_second] init = Ok a /\
            state a = FOCUS /\ time_remaining a = 1499 /\ click StartButton a = Ok a.
Proof.
  destruct (run [Click StartButton; Timer one_second; Timer one_second] init)
    as [a|] eqn:E; [|vm_compute in E; discriminate].
  assert (Hs : state a = FOCUS) by (vm_compute in E; injection E as <-; reflexivity).
  exists a. repeat split; try assumption.
  - vm_compute in E. injection E as <-. reflexivity.
  - exact (start_focus_in_focus_noop _ _ _ _ a (run_reachable _ _ _ E) Hs).
Defined.

(** The gate is in the menu, not in the method: called directly in FOCUS,
    [start_focus] would load the whole focus duration again. *)
Example start_focus_method_reloads :
  time_remaining (start_focus (set_time_remaining 100 (start_focus init))) = 1500.
Proof. reflexivity. Qed.

(** ** The countdown *)

Lemma transition_countdown_ok a a' :
  transition a a' -> positive_durations a -> countdown_ok a -> countdown_ok a'.
Proof.
  unfold positive_durations, countdown_ok.
  intros Ht (Hfd & Hsr & Hlr) (Hnn & Hpos). destruct Ht.
  - auto.
  - rewrite start_focus_time_remaining. split; intros; lia.
  - rewrite start_rest_time_remaining. unfold rest_duration.
    destruct (_ =? 0); split; intros; lia.
  - rewrite stop_timer_state. split; intros; congruence.
  - break_app a. simp. split; intros; lia.
  - rewrite timer_loop_wake_state, timer_loop_wake_time_remaining,
      timer_loop_wake_timer_thread.
    split; [|discriminate]. intros Hs. specialize (Hpos H Hs). lia.
  - rewrite complete_focus_time_remaining. unfold rest_duration.
    destruct (_ =? 0); split; intros; lia.
  - assert (Hs : state a <> IDLE) by (intros E; rewrite E in *; discriminate).
    specialize (Hnn Hs).
    pose proof (wait_for_user_enter_time_remaining a) as Hw.
    destruct (wait_for_user_enter a). simp. subst. split; [auto | discriminate].
  - break_app a. simp. split; [auto | discriminate].
  - pose proof (start_focus_time_remaining a) as Hw.
    destruct (start_focus a). simp. subst. split; [intros; lia | discriminate].
  - break_app a. simp. split; [auto | discriminate].
Qed.

Lemma reachable_countdown_ok fd sr lr n a :
  0 < fd -> 0 < sr -> 0 < lr ->
  reachable (init_with fd sr lr n) a -> countdown_ok a.
Proof.
  intros Hfd Hsr Hlr Hr.
  assert (H : positive_durations a /\ countdown_ok a); [|tauto].
  revert a Hr.
  apply (reachable_ind_transition (fun a => positive_durations a /\ countdown_ok a)).
  - split; [repeat split; assumption|]. split; simpl; [congruence | discriminate].
  - intros a a' [Hp Hc] Ht. split; [|now apply (transition_countdown_ok a a')].
    pose proof (transition_settings _ _ Ht) as Hs. unfold settings in Hs.
    unfold positive_durations in *. injection Hs as -> -> -> _. assumption.
Qed.

Lemma tick_counts_down idle_time a :
  timer_thread a = Some LoopHead -> running a = true ->
  is_timed (state a) = true -> 1 < time_remaining a ->
  tick idle_time a = Ok (timer_loop_wake (set_timer_thread (Some TickSleep) a)).
Proof.
  intros Hth Hr Hs Ht.
  assert (H1 : (0 <? time_remaining a) = true) by (apply Z.ltb_lt; lia).
  assert (H2 : (0 <? time_remaining a - 1) = true) by (apply Z.ltb_lt; lia).
  unfold tick, thread_step at 1. rewrite Hth. unfold timer_loop_head.
  rewrite Hr, Hs, H1. break_app a. simp.
  rewrite timer_loop_wake_time_remaining. simp. now rewrite H2.
Qed.

Lemma tick_last_second idle_time a :
  timer_thread a = Some LoopHead -> running a = true ->
  is_timed (state a) = true -> time_remaining a = 1 ->
  tick idle_time a
  = thread_step idle_time (timer_loop_wake (set_timer_thread (Some TickSleep) a)).
Proof.
  intros Hth Hr Hs Ht.
  assert (H1 : (0 <? time_remaining a) = true) by (rewrite Ht; reflexivity).
  assert (H2 : (0 <? time_remaining a - 1) = false) by (rewrite Ht; reflexivity).
  unfold tick, thread_step at 1. rewrite Hth. unfold timer_loop_head.
  rewrite Hr, Hs, H1. break_app a. simp.
  rewrite timer_loop_wake_time_remaining. simp. now rewrite H2.
Qed.

(** The countdown, second by second.  With positive durations, in every
    reachable state: the time remaining is not negative outside IDLE; a tick
    in a timed state with more than a second left takes exactly one second
    off, stays in the state and renders the new value; and the tick of the
    last second brings the time to 0 and leaves the state in that same tick,
    before any further countdown: a focus session for a rest loaded in full,
    counted as completed, a rest for WAITING_FOR_USER. *)
Lemma countdown_second_by_second
  (fd sr lr n : Z) (a : PomodoroApp) (idle_time : spec_float) :
  0 < fd -> 0 < sr -> 0 < lr -> n <> 0 ->
  reachable (init_with fd sr lr n) a ->
  (state a <> IDLE -> 0 <= time_remaining a) /\
  (timer_thread a = Some LoopHead -> running a = true -> is_timed (state a) = true ->
   0 < time_remaining a ->
   exists a',
     tick idle_time a = Ok a' /\
     (1 < time_remaining a ->
      time_remaining a' = time_remaining a - 1 /\ state a' = state a /\
      snd (title a') = format_time (time_remaining a - 1)) /\
     (time_remaining a = 1 ->
      state a' <> state a /\ 0 <= time_remaining a' /\
      (state a = FOCUS ->
       is_rest (state a') = true /\
       time_remaining a' = rest_duration (TimerState_eqb (state a') LONG_REST) a /\
       completed_sessions a' = completed_sessions a + 1) /\
      (is_rest (state a) = true ->
       state a' = WAITING_FOR_USER /\ time_remaining a' = 0))).
Proof.
  intros Hfd Hsr Hlr Hn Hreach.
  pose proof (reachable_countdown_ok _ _ _ _ _ Hfd Hsr Hlr Hreach) as [Hnn _].
  pose proof (reachable_settings _ _ Hreach) as Hset.
  unfold settings in Hset. simpl in Hset. injection Hset as _ Esr Elr Hn'.
  split; [exact Hnn|]. intros Hth Hr Htimed Hpos.
  destruct (Z.eq_dec (time_remaining a) 1) as [Ht|Ht].
  - rewrite (tick_last_second idle_time a Hth Hr Htimed Ht).
    set (a2 := timer_loop_wake (set_timer_thread (Some TickSleep) a)).
    destruct (is_rest (state a)) eqn:Hrest.
    + exists (set_timer_thread (Some WaitPoll) (wait_for_user_enter a2)). split.
      * unfold a2. clear - Hr Hrest Ht. break_app a. simp. subst.
        destruct st; try discriminate; reflexivity.
      * split; [intros; lia|]. intros _. unfold a2. clear - Hrest Ht.
        break_app a. simp. subst.
        destruct st; try discriminate; simp;
          (split; [discriminate|]); (split; [lia|]);
          (split; [discriminate | auto]).
    + assert (Hs : state a = FOCUS) by (destruct (state a); try discriminate; auto).
      assert (Hc : focus_completes a2 = true).
      { unfold a2. clear - Hr Hs Ht. break_app a. simp. subst. reflexivity. }
      assert (Hn2 : sessions_until_long_rest a2 = sessions_until_long_rest a).
      { unfold a2. clear. break_app a. simp. destruct st; reflexivity. }
      assert (Hcs2 : completed_sessions a2 = completed_sessions a).
      { unfold a2. clear. break_app a. simp. destruct st; reflexivity. }
      assert (Hd2 : forall b, rest_duration b a2 = rest_duration b a).
      { intros b. unfold a2. clear. break_app a. destruct b, st; reflexivity. }
      exists (complete_focus a2). split.
      * apply thread_step_completion; [assumption | now rewrite Hn2, Hn'].
      * split; [intros; lia|]. intros _.
        pose proof (complete_focus_counters a2) as Hcnt. unfold counters in Hcnt.
        injection Hcnt as Hcnt _.
        rewrite complete_focus_state, complete_focus_time_remaining, Hd2, Hs, Hcnt, Hcs2.
        unfold rest_duration. rewrite Esr, Elr.
        destruct (_ =? 0); simpl;
          (split; [discriminate|]); (split; [lia|]);
          (split; [auto | discriminate]).
  - assert (Hgt : 1 < time_remaining a) by lia.
    eexists. split; [now apply tick_counts_down|].
    split; [|intros; contradiction]. intros _.
    clear - Htimed. break_app a. simp. destruct st; try discriminate; auto.
Qed.

Lemma countdown_second_by_second_witness :
  reachable init (start_focus init) /\
  exists a',
    tick one_second (start_focus init) = Ok a' /\
    time_remaining a' = 1499 /\ state a' = FOCUS /\ snd (title a') = "24:59".
Proof.
  assert (Hr : reachable init (start_focus init)).
  { apply (reachable_step init (Click StartButton) init); [constructor | reflexivity]. }
  assert (Hn : 4 <> 0) by discriminate.
  destruct (countdown_second_by_second (25 * 60) (5 * 60) (15 * 60) 4 (start_focus init)
              one_second eq_refl eq_refl eq_refl Hn Hr) as [_ H].
  split; [exact Hr|].
  destruct (H eq_refl eq_refl eq_refl eq_refl) as (a' & Ht & H1 & _).
  destruct (H1 eq_refl) as (Htr & Hs & Hti).
  exists a'. auto.
Defined.

(** The example of the specification, tick by tick: two seconds of focus,
    two seconds of rest, then the user comes back. *)
Example demo_two_ticks :
  observe (ticks [one_second; one_second] (start_focus demo))
  = Some (SHORT_REST, 2, 1, (Coffee, "00:02"), Some LoopHead).
Proof. reflexivity. Qed.

Example demo_four_ticks :
  observe (ticks [one_second; one_second; ten_seconds; ten_seconds] (start_focus demo))
  = Some (WAITING_FOR_USER, 0, 1, (Tomato, "Waiting..."), Some WaitPoll).
Proof. reflexivity. Qed.

Example demo_five_ticks :
  observe (ticks [one_second; one_second; ten_seconds; ten_seconds; one_second]
             (start_focus demo))
  = Some (FOCUS, 2, 1, (Tomato, "00:02"), Some LoopHead).
Proof. reflexivity. Qed.

(** C6, at the input where the code departs from it.  The time remaining is
    meant never to be negative, and the loop tests it before each second;
    but a Stop Timer that arrives while the thread sleeps through a countdown
    second is followed by the decrement the thread was waiting for, and the
    application is then in IDLE with a time remaining of -1. *)
Theorem negative_time_remaining_is_reachable :
  exists a,
    run (stop_during_sleep ++ [Timer one_second]) init = Ok a /\
    reachable init a /\
    state a = IDLE /\ running a = false /\
    time_remaining a = -1 /\ time_remaining a < 0.
Proof.
  destruct (run (stop_during_sleep ++ [Timer one_second]) init) as [a|] eqn:E;
    [|vm_compute in E; discriminate].
  exists a. split; [reflexivity|]. split; [exact (run_reachable _ _ _ E)|].
  vm_compute in E. injection E as <-. repeat split.
Qed.

(** ** Waiting for the user *)

Lemma SFleb_three_not_lt (x : spec_float) :
  SFleb three x = true -> SFltb x three = false.
Proof.
  unfold SFleb, SFltb, three.
  destruct x as [s|s| |s m e]; cbn [SFcompare].
  - discriminate.
  - destruct s; [discriminate | reflexivity].
  - discriminate.
  - destruct s; [discriminate|].
    assert (Hanti : Pos.compare_cont Eq m 6755399441055744
                    = CompOpp (Pos.compare_cont Eq 6755399441055744 m))
      by (symmetry; apply (Pos.compare_cont_antisym 6755399441055744 m Eq)).
    rewrite (Z.compare_antisym e (-51)), Hanti.
    destruct (e ?= -51); destruct (Pos.compare_cont Eq 6755399441055744 m);
      cbn [CompOpp]; intros H; try discriminate H; reflexivity.
Qed.

(** C8.  A poll in WAITING_FOR_USER goes to FOCUS exactly when the idle probe
    answers less than 3 seconds; for every answer of 3 seconds or more (and
    for any other answer that is not less than 3) nothing changes: the state
    stays WAITING_FOR_USER and the thread stays in the polling loop. *)
Theorem wait_for_user_polls_until_active (a : PomodoroApp) (idle_time : spec_float) :
  timer_thread a = Some WaitPoll ->
  running a = true ->
  state a = WAITING_FOR_USER ->
  exists a',
    thread_step idle_time a = Ok a' /\
    (state a' = FOCUS <-> SFltb idle_time three = true) /\
    (SFltb idle_time three = true ->
     time_remaining a' = focus_duration a /\ timer_thread a' = Some LoopHead) /\
    (SFltb idle_time three = false -> a' = a) /\
    (SFleb three idle_time = true -> a' = a).
Proof.
  intros Hth Hr Hs. unfold thread_step, wait_for_user_poll.
  rewrite Hth, Hr, Hs. simpl.
  pose proof (SFleb_three_not_lt idle_time) as Hle.
  destruct (SFltb idle_time three) eqn:Hlt.
  - eexists. split; [reflexivity|].
    pose proof (start_focus_state a) as Hst.
    pose proof (start_focus_time_remaining a) as Htr.
    destruct (start_focus a). simp. subst.
    repeat split; auto; try discriminate.
    intros H. specialize (Hle H). discriminate.
  - exists a. split; [reflexivity|]. rewrite Hs.
    repeat split; auto; discriminate.
Qed.

Lemma wait_for_user_polls_until_active_witness :
  exists a a1 a2,
    run demo_rest demo = Ok a /\
    state a = WAITING_FOR_USER /\
    thread_step ten_seconds a = Ok a1 /\ a1 = a /\
    thread_step one_second a = Ok a2 /\ state a2 = FOCUS.
Proof.
  destruct (run demo_rest demo) as [a|] eqn:E; [|vm_compute in E; discriminate].
  assert (H : timer_thread a = Some WaitPoll /\ running a = true
              /\ state a = WAITING_FOR_USER).
  { vm_compute in E. injection E as <-. repeat split. }
  destruct H as (Hth & Hr & Hs).
  destruct (wait_for_user_polls_until_active a ten_seconds Hth Hr Hs)
    as (a1 & H1 & _ & _ & _ & Hsame).
  destruct (wait_for_user_polls_until_active a one_second Hth Hr Hs)
    as (a2 & H2 & Hiff & _).
  exists a, a1, a2. repeat split; try assumption.
  - apply Hsame. reflexivity.
  - apply Hiff. reflexivity.
Defined.

(** ** Stopping *)

(** Once stopped, a thread that is not in the countdown's sleep never
    touches the time remaining again: it leaves its loops. *)
Lemma thread_step_stopped idle_time a a' :
  running a = false -> timer_thread a <> Some TickSleep ->
  thread_step idle_time a = Ok a' ->
  running a' = false /\ timer_thread a' <> Some TickSleep /\
  time_remaining a' = time_remaining a /\ state a' = state a.
Proof.
  intros Hr Hth. unfold thread_step, timer_loop_head, wait_for_user_poll.
  rewrite Hr. simpl.
  destruct (timer_thread a) as [[| | |]|] eqn:E; try congruence;
    intros H; injection H as <-; break_app a; simp; subst;
    repeat split; congruence.
Qed.

Lemma ticks_after_stop_keep_time idles : forall a a',
  running a = false -> timer_thread a <> Some TickSleep ->
  run (map Timer idles) a = Ok a' ->
  time_remaining a' = time_remaining a /\ state a' = state a.
Proof.
  induction idles as [|i idles IH]; intros a a' Hr Hth H; simpl in H.
  - injection H as <-. auto.
  - destruct (thread_step i a) as [a1|] eqn:E; [|discriminate]. simpl in H.
    destruct (thread_step_stopped _ _ _ Hr Hth E) as (Hr1 & Hth1 & Ht1 & Hs1).
    destruct (IH _ _ Hr1 Hth1 H) as [Ht Hs]. split; congruence.
Qed.

(** C3, at the input where the code departs from it.  [stop_timer] yields
    IDLE with no time remaining and [running] false from every state; but
    when it arrives while the timer thread is in the sleep of a countdown
    second, the thread still performs the decrement it was waiting for, and
    the time remaining ends at -1. *)
Theorem stop_during_sleep_still_decrements :
  (forall a, state (stop_timer a) = IDLE /\ time_remaining (stop_timer a) = 0
             /\ running (stop_timer a) = false) /\
  observe (run stop_during_sleep init)
  = Some (IDLE, 0, 0, (Tomato, "Ready"), Some TickSleep) /\
  observe (run (stop_during_sleep ++ [Timer one_second]) init)
  = Some (IDLE, -1, 0, (Tomato, "Ready"), Some LoopHead) /\
  observe (run (stop_during_sleep ++ [Timer one_second; Timer one_second]) init)
  = Some (IDLE, -1, 0, (Tomato, "Ready"), Some Exited).
Proof.
  split.
  - intros a. now rewrite stop_timer_state, stop_timer_time_remaining, stop_timer_running.
  - repeat split.
Qed.

(** * Further properties of the code *)

(** ** Rendering the time *)

Lemma below_100_ind (P : Z -> bool) :
  forallb (fun n => P (Z.of_nat n)) (seq 0 100) = true ->
  forall z, 0 <= z < 100 -> P z = true.
Proof.
  intros H z Hz. rewrite forallb_forall in H.
  specialize (H (Z.to_nat z)). rewrite Z2Nat.id in H by lia.
  apply H. apply in_seq. lia.
Qed.

Lemma format_02d_length z :
  0 <= z < 100 -> String.length (format_02d z) = 2%nat.
Proof.
  intros Hz. apply Nat.eqb_eq.
  apply (below_100_ind (fun z => Nat.eqb (String.length (format_02d z)) 2));
    [vm_compute; reflexivity | assumption].
Qed.

Lemma format_02d_inj z1 z2 :
  0 <= z1 < 100 -> 0 <= z2 < 100 -> format_02d z1 = format_02d z2 -> z1 = z2.
Proof.
  intros H1 H2 E.
  assert (H : forall z, 0 <= z < 100 ->
              forallb (fun n => implb (String.eqb (format_02d z) (format_02d (Z.of_nat n)))
                                  (z =? Z.of_nat n)) (seq 0 100) = true).
  { apply (below_100_ind
             (fun z => forallb
                         (fun n => implb (String.eqb (format_02d z) (format_02d (Z.of_nat n)))
                                     (z =? Z.of_nat n)) (seq 0 100))).
    vm_compute. reflexivity. }
  specialize (H z1 H1). rewrite forallb_forall in H.
  assert (Hin : In (Z.to_nat z2) (seq 0 100)) by (apply in_seq; lia).
  specialize (H (Z.to_nat z2) Hin). rewrite Z2Nat.id in H by lia.
  rewrite E, String.eqb_refl in H. apply Z.eqb_eq. exact H.
Qed.

Lemma append_inj_length (a b c d : string) :
  String.length a = String.length b -> (a ++ c)%string = (b ++ d)%string ->
  a = b /\ c = d.
Proof.
  revert b. induction a as [|x a IH]; intros [|y b] Hl E; simpl in *;
    try discriminate; auto.
  injection E as -> E. injection Hl as Hl.
  destruct (IH b Hl E) as [-> ->]. auto.
Qed.

Lemma length_append (a b : string) :
  String.length (a ++ b) = (String.length a + String.length b)%nat.
Proof. induction a; simpl; auto. Qed.

Lemma minutes_seconds_bounds s :
  0 <= s < 6000 -> 0 <= s / 60 < 100 /\ 0 <= s mod 60 < 100.
Proof.
  intros Hs. pose proof (Z.mod_pos_bound s 60 ltac:(lia)).
  split; [|lia]. split; [apply Z.div_pos; lia | apply Z.div_lt_upper_bound; lia].
Qed.

Lemma format_02d_digits z :
  0 <= z < 100 ->
  format_02d z = String (digit (z / 10)) (String (digit (z mod 10)) EmptyString).
Proof.
  intros Hz. apply String.eqb_eq.
  apply (below_100_ind
           (fun z => String.eqb (format_02d z)
                       (String (digit (z / 10)) (String (digit (z mod 10)) EmptyString))));
    [vm_compute; reflexivity | assumption].
Qed.

(** X1.  Below 100 minutes, [format_time] renders exactly five characters:
    the tens and the units of the minutes, a colon, the tens and the units
    of the seconds within the minute. *)
Theorem format_time_digits (seconds : Z) :
  0 <= seconds < 6000 ->
  format_time seconds
  = String (digit (seconds / 60 / 10))
      (String (digit (seconds / 60 mod 10))
         (String ":"
            (String (digit (seconds mod 60 / 10))
               (String (digit (seconds mod 60 mod 10)) EmptyString)))).
Proof.
  intros Hs. destruct (minutes_seconds_bounds _ Hs) as [Hm Hsec].
  unfold format_time. cbv zeta.
  rewrite (format_02d_digits _ Hm), (format_02d_digits _ Hsec). reflexivity.
Qed.

Lemma format_time_digits_witness :
  0 <= 1499 < 6000 /\ format_time 1499 = "24:59".
Proof.
  split; [lia|]. rewrite (format_time_digits 1499) by lia. reflexivity.
Defined.

Example digit_seven : digit 7 = "7"%char.
Proof. reflexivity. Qed.

(** X2.  Below 100 minutes, two different remaining times are never
    rendered the same. *)
Theorem format_time_injective (s1 s2 : Z) :
  0 <= s1 < 6000 -> 0 <= s2 < 6000 ->
  format_time s1 = format_time s2 -> s1 = s2.
Proof.
  intros H1 H2 E.
  destruct (minutes_seconds_bounds _ H1) as [Hm1 Hr1].
  destruct (minutes_seconds_bounds _ H2) as [Hm2 Hr2].
  unfold format_time in E. cbv zeta in E.
  apply append_inj_length in E;
    [|now rewrite !format_02d_length].
  destruct E as [Em Er]. injection Er as Er.
  apply format_02d_inj in Em; try assumption.
  apply format_02d_inj in Er; try assumption.
  rewrite (Z.div_mod s1 60), (Z.div_mod s2 60) by lia. now rewrite Em, Er.
Qed.

Lemma format_time_injective_witness :
  (0 <= 61 < 6000 /\ format_time 61 = format_time (60 + 1)) /\ 61 = 60 + 1.
Proof.
  split; [split; [lia | reflexivity]|].
  apply (format_time_injective 61 (60 + 1)); [lia | lia | reflexivity].
Defined.

(** ** What is on display *)

Ltac transition_cases Ht :=
  destruct Ht;
  unfold complete_focus, focus_completes, title_in_sync, menu_up_to_date,
    session_length, announcement in *;
  match goal with a : PomodoroApp |- _ => break_app a end;
  simp; subst;
  repeat match goal with
    | s : TimerState |- _ => destruct s
    | o : option Loc |- _ => destruct o
    | l : Loc |- _ => destruct l
    | H : context [?x =? 0] |- _ => destruct (x =? 0)
    | |- context [?x =? 0] => destruct (x =? 0)
    end;
  simp; try discriminate.

Lemma transition_title_in_sync a a' :
  transition a a' -> title_in_sync a -> title_in_sync a'.
Proof.
  intros Ht. transition_cases Ht; intros Hinv; try exact Hinv; try reflexivity;
    try (injection Hinv as Hinv; now rewrite Hinv).
Qed.

Lemma transition_menu_up_to_date a a' :
  transition a a' -> menu_up_to_date a -> menu_up_to_date a'.
Proof.
  intros Ht. transition_cases Ht; intros Hinv; try exact Hinv; try reflexivity;
    try (injection Hinv; intros; congruence).
Qed.

Lemma reachable_title_in_sync fd sr lr n a :
  reachable (init_with fd sr lr n) a -> title_in_sync a.
Proof.
  revert a. apply (reachable_ind_transition title_in_sync); [reflexivity|].
  intros a a' IH Ht. now apply (transition_title_in_sync a a').
Qed.

Lemma reachable_menu_up_to_date fd sr lr n a :
  reachable (init_with fd sr lr n) a -> menu_up_to_date a.
Proof.
  revert a. apply (reachable_ind_transition menu_up_to_date); [reflexivity|].
  intros a a' IH Ht. now apply (transition_menu_up_to_date a a').
Qed.

(** X3.  In every reachable state the menu bar title is the one of the
    current state: Ready in IDLE, Waiting... in WAITING_FOR_USER, and the
    time remaining as MM:SS in a focus session (tomato) or a rest (coffee). *)
Theorem title_always_current (fd sr lr n : Z) (a : PomodoroApp) :
  reachable (init_with fd sr lr n) a ->
  update_title a = a /\
  title a = match state a with
            | IDLE => (Tomato, "Ready")
            | FOCUS => (Tomato, format_time (time_remaining a))
            | SHORT_REST | LONG_REST => (Coffee, format_time (time_remaining a))
            | WAITING_FOR_USER => (Tomato, "Waiting...")
            end.
Proof.
  intros Hr. apply reachable_title_in_sync in Hr. unfold title_in_sync in Hr.
  split; [exact Hr|]. rewrite <- Hr at 1. break_app a. simp. destruct st; reflexivity.
Qed.

Lemma title_always_current_witness :
  exists a, run focus_until_last_second init = Ok a /\
            reachable init a /\ title a = (Tomato, "00:01").
Proof.
  destruct (run focus_until_last_second init) as [a|] eqn:E;
    [|vm_compute in E; discriminate].
  pose proof (run_reachable _ _ _ E) as Hr.
  destruct (title_always_current _ _ _ _ a Hr) as [_ Ht].
  exists a. repeat split; try assumption.
  rewrite Ht. vm_compute in E. injection E as <-. reflexivity.
Defined.

(** X4.  In every reachable state the statistics item reads the current
    value of [sessions_today], and the skip item is labelled Skip to Focus
    during a rest and Skip to Rest otherwise. *)
Theorem menu_labels_always_current (fd sr lr n : Z) (a : PomodoroApp) :
  reachable (init_with fd sr lr n) a ->
  item_title (stats_item a) = "Sessions today: " ++ str_int (sessions_today a) /\
  item_title (skip_button a)
  = (if is_rest (state a) then "Skip to Focus" else "Skip to Rest").
Proof.
  intros Hr. apply reachable_menu_up_to_date in Hr. unfold menu_up_to_date in Hr.
  split; rewrite <- Hr at 1; break_app a; simp; destruct st; reflexivity.
Qed.

Lemma menu_labels_always_current_witness :
  exists a, run demo_focus demo = Ok a /\ reachable demo a /\
            item_title (stats_item a) = "Sessions today: 1" /\
            item_title (skip_button a) = "Skip to Focus".
Proof.
  destruct (run demo_focus demo) as [a|] eqn:E; [|vm_compute in E; discriminate].
  pose proof (run_reachable _ _ _ E) as Hr.
  destruct (menu_labels_always_current _ _ _ _ a Hr) as [H1 H2].
  exists a. repeat split; try assumption.
  - rewrite H1. vm_compute in E. injection E as <-. reflexivity.
  - rewrite H2. vm_compute in E. injection E as <-. reflexivity.
Defined.

(** X5.  In every reachable state the menu enables exactly the commands
    that do something: a click on an enabled item changes the state, a click
    on a disabled item changes nothing, and no click raises.  Start Focus is
    enabled in IDLE and WAITING_FOR_USER, Stop Timer everywhere but in IDLE,
    and the skip item during a focus session or a rest. *)
Theorem enabled_items_act (fd sr lr n : Z) (a : PomodoroApp) (b : Button) :
  n <> 0 ->
  reachable (init_with fd sr lr n) a ->
  (exists a', click b a = Ok a' /\
              (callback (button b a) = None -> a' = a) /\
              (callback (button b a) <> None -> state a' <> state a)) /\
  (callback (button b a) <> None <->
   match b with
   | StartButton => state a = IDLE \/ state a = WAITING_FOR_USER
   | SkipButton => is_timed (state a) = true
   | StopButton => state a <> IDLE
   end).
Proof.
  intros Hn Hr.
  pose proof (reachable_settings _ _ Hr) as Hset.
  unfold settings in Hset. simpl in Hset. injection Hset as _ _ _ Hn'.
  rewrite <- Hn' in Hn. clear Hn'.
  apply reachable_menu_in_sync in Hr. unfold menu_in_sync, menu_of in Hr.
  unfold click.
  destruct (state a) eqn:Hs; simpl in Hr; injection Hr as H1 H2 H3 H4;
    destruct b; simpl; rewrite ?H1, ?H3, ?H4; simpl;
    try rewrite (skip_to_rest_in_focus a Hs Hn);
    unfold skip_to_focus; rewrite ?Hs; simpl;
    (split;
     [eexists; split; [reflexivity|];
      rewrite ?start_focus_state, ?start_rest_state, ?stop_timer_state;
      split; [try reflexivity; try discriminate | intros Hne; try congruence];
      try (destruct (_ =? 0); discriminate)
     | split; intros; try discriminate; try congruence; try tauto;
       try (destruct H as [H|H]; discriminate)]).
Qed.

Lemma enabled_items_act_witness :
  reachable init (start_focus init) /\
  callback (button StopButton (start_focus init)) <> None /\
  exists a', click StopButton (start_focus init) = Ok a' /\
             state a' <> state (start_focus init).
Proof.
  assert (Hr : reachable init (start_focus init)).
  { apply (reachable_step init (Click StartButton) init); [constructor | reflexivity]. }
  assert (Hn : 4 <> 0) by discriminate.
  destruct (enabled_items_act (25 * 60) (5 * 60) (15 * 60) 4 (start_focus init)
              StopButton Hn Hr) as [(a' & Hc & _ & Hact) _].
  assert (He : callback (button StopButton (start_focus init)) <> None) by discriminate.
  split; [exact Hr|]. split; [exact He|]. exists a'. auto.
Defined.

(** ** Sessions in progress *)

Lemma transition_running a a' :
  transition a a' ->
  running a = negb (TimerState_eqb (state a) IDLE) ->
  running a' = negb (TimerState_eqb (state a') IDLE).
Proof.
  intros Ht. transition_cases Ht; intros Hinv; try exact Hinv; try reflexivity;
    try congruence.
Qed.

Lemma transition_idle_not_running a a' :
  transition a a' ->
  (state a = IDLE -> running a = false) ->
  (state a' = IDLE -> running a' = false).
Proof.
  intros Ht. transition_cases Ht; intros Hinv; try exact Hinv; intros Hidle;
    try discriminate; try reflexivity; try (apply Hinv; assumption).
Qed.

Lemma notify_state m a : state (notify m a) = state a.
Proof. destruct a; reflexivity. Qed.

Lemma notify_running m a : running (notify m a) = running a.
Proof. destruct a; reflexivity. Qed.

Lemma menu_step_app env mev p p' :
  menu_step env mev p = Ok p' ->
  transition (app p) (app p') \/
  (exists m, app p' = notify (Autostart m) (app p)) \/
  (app p' = quit_app (app p) /\ quitting p' = true).
Proof.
  destruct mev as [ev| |]; simpl.
  - destruct (step ev (app p)) as [a'|] eqn:E; [|discriminate].
    simpl. intros H. injection H as <-. left. simpl. now apply (step_transition ev).
  - intros H. injection H as <-. right. left. unfold toggle_autostart_item.
    destruct (is_autostart_enabled env (world p)); eexists; reflexivity.
  - intros H. injection H as <-. right. right. auto.
Qed.

Lemma menu_step_quitting env mev p p' :
  menu_step env mev p = Ok p' -> quitting p' = false -> quitting p = false.
Proof.
  destruct mev as [ev| |]; simpl.
  - destruct (step ev (app p)); [|discriminate]. simpl. intros H. now injection H as <-.
  - intros H. injection H as <-. unfold toggle_autostart_item.
    now destruct (is_autostart_enabled env (world p)).
  - intros H. injection H as <-. discriminate.
Qed.

Lemma menu_run_reachable env mevs : forall p0 p,
  menu_run env mevs p0 = Ok p -> program_reachable env p0 p.
Proof.
  induction mevs as [|mev mevs IH] using rev_ind; intros p0 p H.
  - injection H as <-. constructor.
  - assert (Happ : forall l1 l2 q,
               menu_run env (l1 ++ l2) q = (q' <- menu_run env l1 q ;; menu_run env l2 q')).
    { induction l1 as [|x l1 IHl]; intros l2 q; simpl; [reflexivity|].
      destruct (menu_step env x q); simpl; auto. }
    rewrite Happ in H. destruct (menu_run env mevs p0) as [p1|] eqn:E; [|discriminate].
    simpl in H. destruct (menu_step env mev p1) as [p2|] eqn:E2; [|discriminate].
    injection H as <-. eapply program_reachable_step; eauto.
Qed.

(** X6.  In every state of the program, clicks on Start at Login and on Quit
    included: [running] is false in IDLE; and as long as Quit has not been
    chosen, [running] is true in every other state.  (Quit sets [running] to
    false and leaves the state.) *)
Theorem running_exactly_outside_idle
  (env : Env) (w : World) (fd sr lr n : Z) (p : Program) :
  program_reachable env (init_program env w fd sr lr n) p ->
  (state (app p) = IDLE -> running (app p) = false) /\
  (quitting p = false -> (running (app p) = true <-> state (app p) <> IDLE)).
Proof.
  intros Hr.
  assert (H : (state (app p) = IDLE -> running (app p) = false) /\
              (quitting p = false ->
               running (app p) = negb (TimerState_eqb (state (app p)) IDLE))).
  { induction Hr as [|mev p p' Hr IH Hstep].
    - split; reflexivity.
    - destruct IH as [IH1 IH2].
      pose proof (menu_step_quitting _ _ _ _ Hstep) as Hq.
      destruct (menu_step_app _ _ _ _ Hstep) as [Ht|[[m Hm]|[Hm Hq']]].
      + split.
        * now apply (transition_idle_not_running (app p) (app p')).
        * intros Hq0. apply (transition_running (app p) (app p')); auto.
      + rewrite Hm, notify_state, notify_running. split; auto.
      + rewrite Hm. split; [|intros Hq0; congruence].
        intros _. clear. destruct (app p). reflexivity. }
  destruct H as [H1 H2]. split; [exact H1|].
  intros Hq. rewrite (H2 Hq). destruct (state (app p)); simpl; split; congruence.
Qed.

Lemma running_exactly_outside_idle_witness :
  exists p,
    menu_run sample_env [Machine (Click StartButton); StartAtLogin] sample_program = Ok p /\
    quitting p = false /\ state (app p) = FOCUS /\ running (app p) = true.
Proof.
  destruct (menu_run sample_env [Machine (Click StartButton); StartAtLogin] sample_program)
    as [p|] eqn:E; [|vm_compute in E; discriminate].
  pose proof (menu_run_reachable _ _ _ _ E) as Hr.
  destruct (running_exactly_outside_idle _ _ _ _ _ _ p Hr) as [_ H].
  assert (Hq : quitting p = false) by (vm_compute in E; injection E as <-; reflexivity).
  assert (Hs : state (app p) = FOCUS) by (vm_compute in E; injection E as <-; reflexivity).
  exists p. repeat split; try assumption.
  apply (H Hq). rewrite Hs. discriminate.
Defined.

Example quit_during_focus :
  option_map (fun p => (state (app p), running (app p), quitting p))
    (match menu_run sample_env [Machine (Click StartButton); Quit] sample_program with
     | Ok p => Some p
     | Raise _ => None
     end)
  = Some (FOCUS, false, true).
Proof. reflexivity. Qed.

Lemma transition_time_bounded a a' :
  transition a a' ->
  (is_timed (state a) = true -> time_remaining a <= session_length a) ->
  (is_timed (state a') = true -> time_remaining a' <= session_length a').
Proof.
  intros Ht. transition_cases Ht; intros Hinv; try exact Hinv; intros Htimed;
    try discriminate; try lia; try (specialize (Hinv eq_refl); lia).
Qed.

Lemma reachable_time_bounded fd sr lr n a :
  reachable (init_with fd sr lr n) a ->
  is_timed (state a) = true -> time_remaining a <= session_length a.
Proof.
  revert a.
  apply (reachable_ind_transition
           (fun a => is_timed (state a) = true -> time_remaining a <= session_length a));
    [discriminate|].
  intros a a' IH Ht. now apply (transition_time_bounded a a').
Qed.

(** X7.  With positive durations, in every reachable focus session or rest
    the time remaining lies between 0 and the configured duration of that
    kind of session. *)
Theorem time_remaining_within_session (fd sr lr n : Z) (a : PomodoroApp) :
  0 < fd -> 0 < sr -> 0 < lr ->
  reachable (init_with fd sr lr n) a ->
  is_timed (state a) = true ->
  0 <= time_remaining a <= match state a with
                           | FOCUS => fd
                           | SHORT_REST => sr
                           | LONG_REST => lr
                           | _ => 0
                           end.
Proof.
  intros Hfd Hsr Hlr Hr Htimed.
  pose proof (reachable_countdown_ok _ _ _ _ _ Hfd Hsr Hlr Hr) as [Hnn _].
  pose proof (reachable_time_bounded _ _ _ _ _ Hr Htimed) as Hub.
  pose proof (reachable_settings _ _ Hr) as Hset.
  unfold settings in Hset. simpl in Hset. injection Hset as E1 E2 E3 _.
  unfold session_length in Hub. rewrite E1, E2, E3 in Hub.
  split; [|exact Hub]. apply Hnn. destruct (state a); discriminate.
Qed.

Lemma time_remaining_within_session_witness :
  exists a, run focus_until_last_second init = Ok a /\
            reachable init a /\ is_timed (state a) = true /\
            0 <= time_remaining a <= 1500.
Proof.
  destruct (run focus_until_last_second init) as [a|] eqn:E;
    [|vm_compute in E; discriminate].
  pose proof (run_reachable _ _ _ E) as Hr.
  assert (Hs : state a = FOCUS) by (vm_compute in E; injection E as <-; reflexivity).
  assert (Ht : is_timed (state a) = true) by now rewrite Hs.
  pose proof (time_remaining_within_session (25 * 60) (5 * 60) (15 * 60) 4 a
                eq_refl eq_refl eq_refl Hr Ht) as H.
  rewrite Hs in H. exists a. repeat split; try assumption; apply H.
Defined.

(** X8.  With durations between one second and 99 minutes 59 seconds, in
    every reachable focus session or rest the title shows the time remaining
    as exactly five characters MM:SS; a negative time is never shown. *)
Theorem countdown_always_five_characters (fd sr lr n : Z) (a : PomodoroApp) :
  0 < fd < 6000 -> 0 < sr < 6000 -> 0 < lr < 6000 ->
  reachable (init_with fd sr lr n) a ->
  is_timed (state a) = true ->
  snd (title a) = format_time (time_remaining a) /\
  0 <= time_remaining a < 6000 /\
  String.length (snd (title a)) = 5%nat.
Proof.
  intros Hfd Hsr Hlr Hr Htimed.
  assert (Hb : 0 <= time_remaining a < 6000).
  { pose proof (reachable_countdown_ok _ _ _ _ _ (proj1 Hfd) (proj1 Hsr) (proj1 Hlr) Hr)
      as [Hnn _].
    pose proof (reachable_time_bounded _ _ _ _ _ Hr Htimed) as Hub.
    pose proof (reachable_settings _ _ Hr) as Hset.
    unfold settings in Hset. simpl in Hset. injection Hset as E1 E2 E3 _.
    unfold session_length in Hub. rewrite E1, E2, E3 in Hub.
    split; [apply Hnn; destruct (state a); discriminate|].
    destruct (state a); try discriminate; lia. }
  assert (Ht : snd (title a) = format_time (time_remaining a)).
  { apply reachable_title_in_sync in Hr. unfold title_in_sync in Hr.
    rewrite <- Hr at 1. break_app a. simp. destruct st; try discriminate; reflexivity. }
  split; [exact Ht|]. split; [exact Hb|]. rewrite Ht.
  destruct (minutes_seconds_bounds _ Hb) as [Hm Hsec].
  unfold format_time. cbv zeta.
  rewrite !length_append, !format_02d_length by assumption. reflexivity.
Qed.

Lemma countdown_always_five_characters_witness :
  exists a, run focus_until_last_second init = Ok a /\
            reachable init a /\ is_timed (state a) = true /\
            String.length (snd (title a)) = 5%nat.
Proof.
  destruct (run focus_until_last_second init) as [a|] eqn:E;
    [|vm_compute in E; discriminate].
  pose proof (run_reachable _ _ _ E) as Hr.
  assert (Ht : is_timed (state a) = true)
    by (vm_compute in E; injection E as <-; reflexivity).
  exists a. repeat split; try assumption.
  apply (countdown_always_five_characters (25 * 60) (5 * 60) (15 * 60) 4 a);
    try assumption; split; reflexivity.
Defined.

Lemma transition_announced a a' :
  transition a a' ->
  (forall m, announcement a = Some m ->
             hd_error (filter of_timer (notifications a)) = Some m) ->
  (forall m, announcement a' = Some m ->
             hd_error (filter of_timer (notifications a')) = Some m).
Proof.
  intros Ht. transition_cases Ht; intros Hinv; try exact Hinv; intros m Hm;
    try discriminate; try (injection Hm as <-; reflexivity);
    try (apply Hinv; exact Hm).
Qed.

Lemma notify_notifications m a : notifications (notify m a) = m :: notifications a.
Proof. destruct a; reflexivity. Qed.

Lemma notify_announcement m a : announcement (notify m a) = announcement a.
Proof. destruct a; reflexivity. Qed.

Lemma quit_app_notifications a : notifications (quit_app a) = notifications a.
Proof. destruct a; reflexivity. Qed.

Lemma quit_app_announcement a : announcement (quit_app a) = announcement a.
Proof. destruct a; reflexivity. Qed.

Lemma program_reachable_settings env w fd sr lr n p :
  program_reachable env (init_program env w fd sr lr n) p ->
  settings (app p) = (fd, sr, lr, n).
Proof.
  intros Hr. induction Hr as [|mev p p' Hr IH Hstep]; [reflexivity|].
  destruct (menu_step_app _ _ _ _ Hstep) as [Ht|[[m Hm]|[Hm _]]].
  - now rewrite (transition_settings _ _ Ht).
  - rewrite Hm, <- IH. clear. destruct (app p). reflexivity.
  - rewrite Hm, <- IH. clear. destruct (app p). reflexivity.
Qed.

(** X9.  In every state of the program other than IDLE, clicks on Start at
    Login and on Quit included, the latest notification of the timer (the
    messages of the Start at Login item set aside) is the one that announces
    the current state: the focus session or the break with its length in
    whole minutes, or the invitation to come back. *)
Theorem last_notification_announces_state
  (env : Env) (w : World) (fd sr lr n : Z) (p : Program) :
  program_reachable env (init_program env w fd sr lr n) p ->
  state (app p) <> IDLE ->
  hd_error (filter of_timer (notifications (app p)))
  = Some match state (app p) with
         | FOCUS => FocusTime (fd / 60)
         | SHORT_REST => Break false (sr / 60)
         | LONG_REST => Break true (lr / 60)
         | _ => ReadyToFocus
         end.
Proof.
  intros Hr Hs.
  pose proof (program_reachable_settings _ _ _ _ _ _ _ Hr) as Hset.
  unfold settings in Hset. injection Hset as E1 E2 E3 _.
  assert (H : forall m, announcement (app p) = Some m ->
                        hd_error (filter of_timer (notifications (app p))) = Some m).
  { clear Hs E1 E2 E3. induction Hr as [|mev p p' Hr IH Hstep]; [discriminate|].
    destruct (menu_step_app _ _ _ _ Hstep) as [Ht|[[m Hm]|[Hm _]]].
    - now apply (transition_announced (app p) (app p')).
    - rewrite Hm, notify_notifications, notify_announcement. simpl. exact IH.
    - rewrite Hm, quit_app_notifications, quit_app_announcement. exact IH. }
  apply H. unfold announcement. rewrite E1, E2, E3.
  destruct (state (app p)); try reflexivity. contradiction.
Qed.

Lemma last_notification_announces_state_witness :
  exists p,
    menu_run sample_env [Machine (Click StartButton); StartAtLogin] sample_program = Ok p /\
    state (app p) <> IDLE /\
    hd_error (notifications (app p)) = Some (Autostart AutostartEnabled) /\
    hd_error (filter of_timer (notifications (app p))) = Some (FocusTime 25).
Proof.
  destruct (menu_run sample_env [Machine (Click StartButton); StartAtLogin] sample_program)
    as [p|] eqn:E; [|vm_compute in E; discriminate].
  pose proof (menu_run_reachable _ _ _ _ E) as Hr.
  assert (Hs : state (app p) = FOCUS) by (vm_compute in E; injection E as <-; reflexivity).
  assert (Hi : state (app p) <> IDLE) by (rewrite Hs; discriminate).
  pose proof (last_notification_announces_state _ _ _ _ _ _ p Hr Hi) as H.
  rewrite Hs in H. exists p. repeat split; try assumption.
  vm_compute in E. injection E as <-. reflexivity.
Defined.

(** ** Commands in sequence *)

Lemma reachable_click b a0 a a' :
  reachable a0 a -> click b a = Ok a' -> reachable a0 a'.
Proof. intros Hr Hc. now apply (reachable_step a0 (Click b) a a'). Qed.

(** X10.  From a reachable focus session, the skip item pressed twice goes
    to a rest and back to a fresh focus session: the full focus duration is
    loaded again and the counters are as they were. *)
Theorem skip_twice_restarts_focus (fd sr lr n : Z) (a : PomodoroApp) :
  n <> 0 ->
  reachable (init_with fd sr lr n) a ->
  state a = FOCUS ->
  exists a1 a2,
    click SkipButton a = Ok a1 /\ is_rest (state a1) = true /\
    click SkipButton a1 = Ok a2 /\
    state a2 = FOCUS /\ time_remaining a2 = fd /\ running a2 = true /\
    counters a2 = counters a.
Proof.
  intros Hn Hr Hs.
  pose proof (reachable_settings _ _ Hr) as Hset.
  unfold settings in Hset. simpl in Hset. injection Hset as Hfd _ _ Hn'.
  rewrite <- Hn' in Hn.
  pose proof (reachable_menu_in_sync _ _ _ _ _ Hr) as Hm.
  unfold menu_in_sync, menu_of in Hm. rewrite Hs in Hm. simpl in Hm.
  injection Hm as _ _ Hskip _.
  assert (Hc1 : click SkipButton a
                = Ok (start_rest ((completed_sessions a + 1)
                                    mod sessions_until_long_rest a =? 0) a)).
  { unfold click. simpl. rewrite Hskip. simpl. now apply skip_to_rest_in_focus. }
  set (a1 := start_rest _ a) in Hc1.
  assert (Hs1 : is_rest (state a1) = true).
  { unfold a1. rewrite start_rest_state. now destruct (_ =? 0). }
  pose proof (reachable_menu_in_sync _ _ _ _ _ (reachable_click _ _ _ _ Hr Hc1)) as Hm1.
  unfold menu_in_sync, menu_of in Hm1.
  assert (Hskip1 : callback (skip_button a1) = Some skip_to_focus_cb).
  { destruct (state a1); try discriminate; simpl in Hm1; now injection Hm1 as _ _ ? _. }
  exists a1, (start_focus a1). repeat split; try assumption.
  - unfold click. simpl. rewrite Hskip1. simpl. unfold skip_to_focus. now rewrite Hs1.
  - apply start_focus_state.
  - rewrite start_focus_time_remaining. unfold a1.
    pose proof (start_rest_settings
                  ((completed_sessions a + 1) mod sessions_until_long_rest a =? 0) a) as E.
    unfold settings in E. injection E as -> _ _ _. exact Hfd.
  - apply start_focus_running.
  - rewrite start_focus_counters. unfold a1. apply start_rest_counters.
Qed.

Lemma skip_twice_restarts_focus_witness :
  exists a a1 a2,
    run [Click StartButton; Timer one_second; Timer one_second] init = Ok a /\
    time_remaining a = 1499 /\
    click SkipButton a = Ok a1 /\ click SkipButton a1 = Ok a2 /\
    state a2 = FOCUS /\ time_remaining a2 = 1500.
Proof.
  destruct (run [Click StartButton; Timer one_second; Timer one_second] init)
    as [a|] eqn:E; [|vm_compute in E; discriminate].
  assert (Hs : state a = FOCUS) by (vm_compute in E; injection E as <-; reflexivity).
  assert (Hn : 4 <> 0) by discriminate.
  destruct (skip_twice_restarts_focus (25 * 60) (5 * 60) (15 * 60) 4 a Hn
              (run_reachable _ _ _ E) Hs) as (a1 & a2 & H1 & _ & H2 & H3 & H4 & _).
  exists a, a1, a2. repeat split; try assumption.
  vm_compute in E. injection E as <-. reflexivity.
Defined.

(** X11.  From a reachable state other than IDLE, Stop Timer followed by
    Start Focus gives a fresh focus session: IDLE in between, then the full
    focus duration, with the counters of completed sessions kept. *)
Theorem stop_then_start_keeps_counters (fd sr lr n : Z) (a : PomodoroApp) :
  reachable (init_with fd sr lr n) a ->
  state a <> IDLE ->
  exists a1 a2,
    click StopButton a = Ok a1 /\ state a1 = IDLE /\ running a1 = false /\
    click StartButton a1 = Ok a2 /\
    state a2 = FOCUS /\ time_remaining a2 = fd /\ running a2 = true /\
    counters a2 = counters a /\ thread_alive a2 = true.
Proof.
  intros Hr Hs.
  pose proof (reachable_settings _ _ Hr) as Hset.
  unfold settings in Hset. simpl in Hset. injection Hset as Hfd _ _ _.
  pose proof (reachable_menu_in_sync _ _ _ _ _ Hr) as Hm.
  unfold menu_in_sync, menu_of in Hm.
  assert (Hstop : callback (stop_button a) = Some stop_timer_cb).
  { destruct (state a); try contradiction; simpl in Hm; now injection Hm as _ _ _ ?. }
  assert (Hc1 : click StopButton a = Ok (stop_timer a)).
  { unfold click. simpl. now rewrite Hstop. }
  pose proof (reachable_menu_in_sync _ _ _ _ _ (reachable_click _ _ _ _ Hr Hc1)) as Hm1.
  unfold menu_in_sync, menu_of in Hm1. rewrite stop_timer_state in Hm1. simpl in Hm1.
  injection Hm1 as Hstart _ _ _.
  exists (stop_timer a), (start_focus (stop_timer a)).
  repeat split; try assumption.
  - apply stop_timer_state.
  - apply stop_timer_running.
  - unfold click. simpl. now rewrite Hstart.
  - apply start_focus_state.
  - rewrite start_focus_time_remaining.
    pose proof (stop_timer_settings a) as E. unfold settings in E.
    injection E as -> _ _ _. exact Hfd.
  - apply start_focus_running.
  - now rewrite start_focus_counters, stop_timer_counters.
  - clear. unfold thread_alive. break_app a.
    destruct st; destruct th as [[| | |]|]; reflexivity.
Qed.

Lemma stop_then_start_keeps_counters_witness :
  exists a a1 a2,
    run demo_rest demo = Ok a /\ state a <> IDLE /\ completed_sessions a = 1 /\
    click StopButton a = Ok a1 /\ click StartButton a1 = Ok a2 /\
    state a2 = FOCUS /\ counters a2 = counters a.
Proof.
  destruct (run demo_rest demo) as [a|] eqn:E; [|vm_compute in E; discriminate].
  assert (Hs : state a <> IDLE)
    by (vm_compute in E; injection E as <-; discriminate).
  destruct (stop_then_start_keeps_counters 2 2 2 2 a (run_reachable _ _ _ E) Hs)
    as (a1 & a2 & H1 & _ & _ & H2 & H3 & _ & _ & H4 & _).
  exists a, a1, a2. repeat split; try assumption.
  vm_compute in E. injection E as <-. reflexivity.
Defined.

(** ** The timer thread and the flag *)

Lemma thread_step_not_running idle_time a :
  running a = false ->
  exists a', thread_step idle_time a = Ok a' /\
             running a' = false /\ state a' = state a /\
             counters a' = counters a /\
             match timer_thread a with
             | Some LoopHead => timer_thread a' = Some Exited
                                /\ time_remaining a' = time_remaining a
             | Some TickSleep => timer_thread a' = Some LoopHead
                                 /\ time_remaining a' = time_remaining a - 1
             | Some WaitPoll => timer_thread a' = Some LoopHead
                                /\ time_remaining a' = time_remaining a
             | Some Exited | None => a' = a
             end.
Proof.
  intros Hr. unfold thread_step, timer_loop_head, wait_for_user_poll. rewrite Hr.
  destruct (timer_thread a) as [[| | |]|] eqn:E; simpl; eexists;
    (split; [reflexivity|]); break_app a; simp; subst; auto;
    destruct st; simp; auto.
Qed.

(** X12.  Once [running] is false (after [stop_timer] or [quit_app]) and
    with no further click, the timer thread has left [timer_loop] after at
    most two of its steps, wherever it was; the state and the counters are as
    they were, and the time remaining is as it was or one less. *)
Theorem thread_exits_when_not_running (a : PomodoroApp) (i1 i2 : spec_float) :
  running a = false ->
  exists a',
    run [Timer i1; Timer i2] a = Ok a' /\
    thread_alive a' = false /\
    state a' = state a /\ counters a' = counters a /\
    (time_remaining a' = time_remaining a \/
     time_remaining a' = time_remaining a - 1).
Proof.
  intros Hr.
  destruct (thread_step_not_running i1 a Hr) as (a1 & H1 & Hr1 & Hs1 & Hc1 & Hth1).
  destruct (thread_step_not_running i2 a1 Hr1) as (a2 & H2 & Hr2 & Hs2 & Hc2 & Hth2).
  exists a2. simpl. rewrite H1. simpl. rewrite H2. simpl.
  split; [reflexivity|]. unfold thread_alive, no_live_thread.
  destruct (timer_thread a) as [[| | |]|] eqn:E.
  - destruct Hth1 as [E1 Ht1]. rewrite E1 in Hth2. subst a2.
    rewrite E1. repeat split; try congruence; auto.
  - destruct Hth1 as [E1 Ht1]. rewrite E1 in Hth2. destruct Hth2 as [E2 Ht2].
    rewrite E2. repeat split; try congruence. right. lia.
  - destruct Hth1 as [E1 Ht1]. rewrite E1 in Hth2. destruct Hth2 as [E2 Ht2].
    rewrite E2. repeat split; try congruence. left. lia.
  - subst a1. rewrite E in Hth2. subst a2. rewrite E. repeat split; auto.
  - subst a1. rewrite E in Hth2. subst a2. rewrite E. repeat split; auto.
Qed.

Lemma thread_exits_when_not_running_witness :
  exists a a',
    run [Click StartButton; Timer one_second; Click StopButton] init = Ok a /\
    running a = false /\ timer_thread a = Some TickSleep /\
    run [Timer one_second; Timer one_second] a = Ok a' /\
    thread_alive a' = false /\ state a' = IDLE.
Proof.
  destruct (run [Click StartButton; Timer one_second; Click StopButton] init)
    as [a|] eqn:E; [|vm_compute in E; discriminate].
  assert (H : running a = false /\ timer_thread a = Some TickSleep /\ state a = IDLE)
    by (vm_compute in E; injection E as <-; repeat split).
  destruct H as (Hr & Hth & Hs).
  destruct (thread_exits_when_not_running a one_second one_second Hr)
    as (a' & H1 & H2 & H3 & _).
  exists a, a'. repeat split; try assumption. congruence.
Defined.

Example quit_app_stops_the_thread :
  observe (run [Timer one_second; Timer one_second] (quit_app (start_focus init)))
  = Some (FOCUS, 1500, 0, (Tomato, "25:00"), Some Exited).
Proof. reflexivity. Qed.

Lemma transition_waiting_polls a a' :
  transition a a' ->
  running a = negb (TimerState_eqb (state a) IDLE) /\
  (state a = WAITING_FOR_USER -> timer_thread a = Some WaitPoll) ->
  state a' = WAITING_FOR_USER -> timer_thread a' = Some WaitPoll.
Proof.
  intros Ht. transition_cases Ht; intros [Hrun Hinv] Hw; try discriminate;
    try reflexivity; try (apply Hinv; exact Hw);
    try (specialize (Hinv eq_refl); discriminate); try congruence.
  subst r. discriminate.
Qed.

Lemma reachable_waiting_polls fd sr lr n a :
  reachable (init_with fd sr lr n) a ->
  state a = WAITING_FOR_USER -> timer_thread a = Some WaitPoll.
Proof.
  intros Hr.
  assert (H : running a = negb (TimerState_eqb (state a) IDLE) /\
              (state a = WAITING_FOR_USER -> timer_thread a = Some WaitPoll));
    [|tauto].
  revert a Hr.
  apply (reachable_ind_transition
           (fun a => running a = negb (TimerState_eqb (state a) IDLE) /\
                     (state a = WAITING_FOR_USER -> timer_thread a = Some WaitPoll))).
  - split; [reflexivity | discriminate].
  - intros a a' IH Ht. split.
    + now apply (transition_running a a').
    + now apply (transition_waiting_polls a a').
Qed.

(** X13.  While the application waits for the user, a click on Start Focus
    starts the focus session at once, and the poll that follows ends the
    waiting loop without starting it a second time, whatever the idle time:
    no second notification, and the time remaining still the full focus
    duration. *)
Theorem manual_start_while_waiting
  (fd sr lr n : Z) (a : PomodoroApp) (idle_time : spec_float) :
  reachable (init_with fd sr lr n) a ->
  state a = WAITING_FOR_USER ->
  exists a1 a2,
    click StartButton a = Ok a1 /\
    state a1 = FOCUS /\ time_remaining a1 = fd /\
    notifications a1 = FocusTime (fd / 60) :: notifications a /\
    thread_step idle_time a1 = Ok a2 /\
    state a2 = FOCUS /\ time_remaining a2 = fd /\
    notifications a2 = notifications a1 /\
    timer_thread a2 = Some LoopHead.
Proof.
  intros Hr Hs.
  pose proof (reachable_settings _ _ Hr) as Hset.
  unfold settings in Hset. simpl in Hset. injection Hset as Hfd _ _ _.
  pose proof (reachable_waiting_polls _ _ _ _ _ Hr Hs) as Hth.
  pose proof (reachable_menu_in_sync _ _ _ _ _ Hr) as Hm.
  unfold menu_in_sync, menu_of in Hm. rewrite Hs in Hm. simpl in Hm.
  injection Hm as Hstart _ _ _.
  exists (start_focus a), (set_timer_thread (Some LoopHead) (start_focus a)).
  unfold click. simpl. rewrite Hstart. simpl.
  split; [reflexivity|].
  unfold thread_step, wait_for_user_poll.
  rewrite start_focus_timer_thread, start_focus_running, start_focus_state.
  unfold no_live_thread. rewrite Hth. simpl.
  break_app a. simp. subst. repeat split.
Qed.

Lemma manual_start_while_waiting_witness :
  exists a a1 a2,
    run demo_rest demo = Ok a /\ state a = WAITING_FOR_USER /\
    click StartButton a = Ok a1 /\ thread_step one_second a1 = Ok a2 /\
    state a2 = FOCUS /\ notifications a2 = notifications a1.
Proof.
  destruct (run demo_rest demo) as [a|] eqn:E; [|vm_compute in E; discriminate].
  assert (Hs : state a = WAITING_FOR_USER)
    by (vm_compute in E; injection E as <-; reflexivity).
  destruct (manual_start_while_waiting 2 2 2 2 a one_second (run_reachable _ _ _ E) Hs)
    as (a1 & a2 & H1 & _ & _ & _ & H2 & H3 & _ & H4 & _).
  exists a, a1, a2. repeat split; assumption.
Defined.

(** ** The only exception *)

Lemma thread_step_ok_unless_completion idle_time a :
  focus_completes a = false -> exists a', thread_step idle_time a = Ok a'.
Proof.
  unfold focus_completes, thread_step, timer_loop_head. intros Hc.
  destruct (timer_thread a) as [[| | |]|]; try (eexists; reflexivity).
  destruct (running a); [|eexists; reflexivity].
  destruct (is_timed (state a)); [|eexists; reflexivity].
  destruct (0 <? time_remaining a); [eexists; reflexivity|].
  destruct (TimerState_eqb (state a) FOCUS); [discriminate|].
  destruct (is_rest (state a)); eexists; reflexivity.
Qed.

(** X14.  The state machine raises in one situation only, the modulo by a
    threshold of zero: [skip_to_rest] raises exactly in FOCUS with
    [sessions_until_long_rest] equal to 0, and a step of the timer thread
    raises exactly when it completes a focus session with that threshold. *)
Theorem zero_threshold_is_the_only_error (a : PomodoroApp) (idle_time : spec_float) :
  (skip_to_rest a = Raise ZeroDivisionError <->
   state a = FOCUS /\ sessions_until_long_rest a = 0) /\
  (thread_step idle_time a = Raise ZeroDivisionError <->
   focus_completes a = true /\ sessions_until_long_rest a = 0).
Proof.
  split; split.
  - intros H. destruct (TimerState_eqb (state a) FOCUS) eqn:E.
    + apply TimerState_eqb_eq in E. split; [assumption|].
      destruct (Z.eq_dec (sessions_until_long_rest a) 0) as [Hn|Hn]; [assumption|].
      rewrite (skip_to_rest_in_focus a E Hn) in H. discriminate.
    + rewrite skip_to_rest_elsewhere in H; [discriminate|].
      intros Hs. apply TimerState_eqb_eq in Hs. congruence.
  - intros [Hs Hn]. unfold skip_to_rest, py_mod. rewrite Hs, Hn. reflexivity.
  - intros H. destruct (focus_completes a) eqn:Hc.
    + split; [reflexivity|].
      destruct (Z.eq_dec (sessions_until_long_rest a) 0) as [Hn|Hn]; [assumption|].
      rewrite (thread_step_completion idle_time a Hc Hn) in H. discriminate.
    + destruct (thread_step_ok_unless_completion idle_time a Hc) as [a' Ha'].
      rewrite Ha' in H. discriminate.
  - intros [Hc Hn]. destruct (thread_step idle_time a) as [a'|[]] eqn:E; [|reflexivity].
    destruct (thread_step_completion_inv _ _ _ Hc E) as [Hn' _]. contradiction.
Qed.

Lemma zero_threshold_is_the_only_error_witness :
  let a := set_time_remaining 0 (start_focus (init_with 1500 300 900 0)) in
  (state a = FOCUS /\ sessions_until_long_rest a = 0 /\ focus_completes a = true) /\
  skip_to_rest a = Raise ZeroDivisionError /\
  thread_step one_second a = Raise ZeroDivisionError.
Proof.
  split; [repeat split|].
  destruct (zero_threshold_is_the_only_error
              (set_time_remaining 0 (start_focus (init_with 1500 300 900 0))) one_second)
    as [[_ H1] [_ H2]].
  split; [apply H1 | apply H2]; split; reflexivity.
Defined.

(** ** Counting over an execution *)

Lemma completions_bounds evs : forall a,
  0 <= completions evs a <= Z.of_nat (List.length (filter is_timer evs)).
Proof.
  induction evs as [|ev evs IH]; intros a; simpl; [lia|].
  destruct (step ev a) as [a'|].
  - specialize (IH a'). destruct ev as [b|i]; simpl.
    + lia.
    + destruct (focus_completes a); simpl List.length; lia.
  - destruct (is_timer ev); simpl List.length; lia.
Qed.

(** X15.  Along any execution the counter of completed sessions never goes
    down, and it goes up by at most one for each step of the timer thread:
    clicks alone never change it. *)
Theorem completed_sessions_monotone (evs : list event) (a0 a : PomodoroApp) :
  run evs a0 = Ok a ->
  completed_sessions a0 <= completed_sessions a
  <= completed_sessions a0 + Z.of_nat (List.length (filter is_timer evs)).
Proof.
  intros H. rewrite (run_completions _ _ _ H).
  pose proof (completions_bounds evs a0). lia.
Qed.

Lemma completed_sessions_monotone_witness :
  exists a, run [Click StartButton; Click SkipButton; Click SkipButton; Click StopButton]
              init = Ok a /\
            completed_sessions a = 0.
Proof.
  destruct (run [Click StartButton; Click SkipButton; Click SkipButton; Click StopButton]
              init) as [a|] eqn:E; [|vm_compute in E; discriminate].
  pose proof (completed_sessions_monotone _ _ _ E) as H. simpl in H.
  exists a. split; [reflexivity | lia].
Defined.

(** ** Start at login *)

Lemma Path_eqb_eq p q : Path_eqb p q = true <-> p = q.
Proof.
  unfold Path_eqb. destruct (list_eq_dec string_dec p q); split; congruence.
Qed.

Lemma Path_eqb_refl p : Path_eqb p p = true.
Proof. now apply Path_eqb_eq. Qed.

Lemma exists_without p fs :
  existsb (fun f => Path_eqb p (fst f)) (without p fs) = false.
Proof.
  induction fs as [|f fs IH]; simpl; [reflexivity|].
  destruct (Path_eqb p (fst f)) eqn:E; simpl; [assumption|]. now rewrite E.
Qed.

Lemma without_absent p fs :
  existsb (fun f => Path_eqb p (fst f)) fs = false -> without p fs = fs.
Proof.
  induction fs as [|f fs IH]; simpl; [reflexivity|]. intros H.
  apply orb_false_iff in H. destruct H as [E H]. rewrite E. simpl. now rewrite IH.
Qed.

Lemma find_without_other p q fs :
  q <> p ->
  find (fun f => Path_eqb q (fst f)) (without p fs)
  = find (fun f => Path_eqb q (fst f)) fs.
Proof.
  intros Hq. induction fs as [|f fs IH]; simpl; [reflexivity|].
  destruct (Path_eqb p (fst f)) eqn:E; simpl.
  - apply Path_eqb_eq in E. subst p.
    destruct (Path_eqb q (fst f)) eqn:E'; [|assumption].
    apply Path_eqb_eq in E'. contradiction.
  - now rewrite IH.
Qed.

Lemma enable_autostart_enabled env w :
  is_autostart_enabled env (enable_autostart env w) = true.
Proof.
  unfold is_autostart_enabled, enable_autostart, file_exists. simpl.
  now rewrite Path_eqb_refl.
Qed.

Lemma disable_autostart_disabled env w :
  is_autostart_enabled env (disable_autostart env w) = false.
Proof.
  unfold is_autostart_enabled, disable_autostart.
  destruct (file_exists (get_launch_agent_path env) w) eqn:E; [|assumption].
  unfold file_exists. simpl. apply exists_without.
Qed.


(** X17.  [enable_autostart] and [disable_autostart] touch no file but the
    launch agent's; disabling when the file is not there does nothing at
    all; and enabling then disabling, from a machine without the file, leaves
    the files as they were, after handing [os.system] two command lines: the
    words launchctl load, then launchctl unload, each followed by the path of
    that file as [str] gives it, unquoted. *)
Theorem autostart_round_trip (env : Env) (w : World) :
  (forall q, q <> get_launch_agent_path env ->
             read_file q (enable_autostart env w) = read_file q w /\
             read_file q (disable_autostart env w) = read_file q w) /\
  (is_autostart_enabled env w = false ->
   disable_autostart env w = w /\
   files (disable_autostart env (enable_autostart env w)) = files w /\
   commands (disable_autostart env (enable_autostart env w))
   = ("launchctl unload " ++ path_str (get_launch_agent_path env))
       :: ("launchctl load " ++ path_str (get_launch_agent_path env))
       :: commands w).
Proof.
  split.
  - intros q Hq. unfold read_file, enable_autostart, disable_autostart. split.
    + simpl. destruct (Path_eqb q (get_launch_agent_path env)) eqn:E.
      * apply Path_eqb_eq in E. contradiction.
      * now rewrite find_without_other.
    + destruct (file_exists (get_launch_agent_path env) w); [|reflexivity].
      simpl. now rewrite find_without_other.
  - intros Hd. unfold is_autostart_enabled in Hd.
    assert (He : file_exists (get_launch_agent_path env) (enable_autostart env w) = true)
      by apply enable_autostart_enabled.
    unfold disable_autostart at 1. rewrite Hd. split; [reflexivity|].
    unfold disable_autostart. rewrite He.
    unfold enable_autostart, os_system, unlink, write_file, mkdir.
    cbn [files commands]. cbn [without filter fst]. rewrite Path_eqb_refl. cbn [negb].
    unfold file_exists in Hd.
    assert (Hw : forall fs, without (get_launch_agent_path env)
                              (without (get_launch_agent_path env) fs)
                            = without (get_launch_agent_path env) fs).
    { intros fs. apply without_absent, exists_without. }
    fold (without (get_launch_agent_path env)
            (without (get_launch_agent_path env) (files w))).
    rewrite Hw, (without_absent _ _ Hd). split; reflexivity.
Qed.

Lemma autostart_round_trip_witness :
  is_autostart_enabled sample_env empty_world = false /\
  disable_autostart sample_env empty_world = empty_world /\
  files (disable_autostart sample_env (enable_autostart sample_env empty_world)) = [] /\
  commands (disable_autostart sample_env (enable_autostart sample_env empty_world))
  = ["launchctl unload /Users/me/Library/LaunchAgents/com.saurabhmisra.pomodoro.plist";
     "launchctl load /Users/me/Library/LaunchAgents/com.saurabhmisra.pomodoro.plist"] /\
  read_file ["Users"; "me"; "pomodoro.py"] (enable_autostart sample_env empty_world) = None.
Proof.
  destruct (autostart_round_trip sample_env empty_world) as [Hother Hback].
  destruct (Hback eq_refl) as (H1 & H2 & H3).
  assert (Hq : ["Users"; "me"; "pomodoro.py"] <> get_launch_agent_path sample_env)
    by discriminate.
  destruct (Hother _ Hq) as [H4 _].
  repeat split; assumption.
Defined.

(** A home directory with a space in its name: the command line has the
    space as it is. *)
Example command_line_is_not_quoted :
  commands (enable_autostart
              {| home := ["Users"; "my name"]; frozen := false;
                 sys_executable := []; script_file := [] |} empty_world)
  = ["launchctl load /Users/my name/Library/LaunchAgents/com.saurabhmisra.pomodoro.plist"].
Proof. reflexivity. Qed.

Example launch_agent_path_of_home :
  get_launch_agent_path {| home := ["Users"; "me"]; frozen := false;
                           sys_executable := []; script_file := [] |}
  = ["Users"; "me"; "Library"; "LaunchAgents"; "com.saurabhmisra.pomodoro.plist"].
Proof. reflexivity. Qed.

Lemma toggle_autostart_item_agrees env p :
  (world (toggle_autostart_item env p), autostart_item (toggle_autostart_item env p))
  = fst (toggle_autostart env (world p, autostart_item p, [])).
Proof.
  unfold toggle_autostart_item, toggle_autostart.
  destruct (is_autostart_enabled env (world p)); reflexivity.
Qed.

(** X19.  In every state of the program the check mark of the Start at
    Login item says whether the launch agent file exists: [__init__] reads it
    from the disk and every toggle sets it to what it has just done; the
    timer and Quit touch neither. *)
Theorem check_mark_agrees_with_disk
  (env : Env) (w : World) (fd sr lr n : Z) (p : Program) :
  program_reachable env (init_program env w fd sr lr n) p ->
  autostart_item p = is_autostart_enabled env (world p).
Proof.
  intros Hr. induction Hr as [|mev p p' Hr IH Hstep]; [reflexivity|].
  destruct mev as [ev| |]; simpl in Hstep.
  - destruct (step ev (app p)); [|discriminate]. simpl in Hstep.
    injection Hstep as <-. exact IH.
  - injection Hstep as <-. unfold toggle_autostart_item.
    destruct (is_autostart_enabled env (world p)); simpl.
    + now rewrite disable_autostart_disabled.
    + now rewrite enable_autostart_enabled.
  - injection Hstep as <-. exact IH.
Qed.

Lemma check_mark_agrees_with_disk_witness :
  exists p,
    menu_run sample_env
      [StartAtLogin; Machine (Click StartButton); StartAtLogin; StartAtLogin]
      sample_program = Ok p /\
    autostart_item p = true /\ is_autostart_enabled sample_env (world p) = true.
Proof.
  destruct (menu_run sample_env
              [StartAtLogin; Machine (Click StartButton); StartAtLogin; StartAtLogin]
              sample_program) as [p|] eqn:E; [|vm_compute in E; discriminate].
  pose proof (check_mark_agrees_with_disk _ _ _ _ _ _ p (menu_run_reachable _ _ _ _ E)) as H.
  exists p. split; [reflexivity|].
  assert (Hm : autostart_item p = true)
    by (vm_compute in E; injection E as <-; reflexivity).
  split; [exact Hm | now rewrite <- H].
Defined.
